(** * Workspace root resolution of [default-workspace-server.ts]

    A shallow embedding of
    [packages/workspace/src/node/default-workspace-server.ts]:
    the command-line capture ([WorkspaceCliContribution.setArguments]), the
    one-time resolution of the workspace root ([DefaultWorkspaceServer.init]),
    [getRoot], [setRoot] and the two helpers that read and write
    [<home>/.theia/recentworkspace.json].

    JavaScript values are an inductive type, promises that are awaited are
    run in a state-and-exception monad over the world (file system, the
    server's [root] deferred, the messages shown), and promises the source
    does not await ([writeToUserHome] in [setRoot], the answer to the
    prompt, [fs.remove]) are run on the spot for their effects, with their
    outcome dropped.
    Node's [path], [JSON], [String.prototype.trim], fs-extra's [writeJson]
    and Theia's [FileUri] are not part of the file: they are the fields of a
    [Host] record every operation takes. *)

From stdpp Require Import gmap strings list fin_maps.
From Stdlib Require Import ZArith Ascii String DecimalString.

Local Open Scope string_scope.
#[local] Set Warnings "-register-all".

(** ** JavaScript values *)

Inductive JSValue : Type :=
| JUndefined
| JNull
| JBool (b : bool)
| JNumber (n : Z)
| JString (s : string)
| JArray (items : list JSValue)
| JObject (fields : list (string * JSValue)).

(** Exceptions the modelled code can meet. *)
Inductive errno := ENOENT | ENOTDIR | EISDIR | EEXIST.

Inductive error :=
| TypeError
| FsError (code : errno).

Inductive result (A : Type) : Type :=
| Ok (a : A)
| Throw (e : error).
Arguments Ok {A} a.
Arguments Throw {A} e.

(** [ToBoolean]: what [if (x)] and [!x] look at.  Numbers are integers
    here: the code only ever tests them for being zero. *)
Definition truthy (v : JSValue) : bool :=
  match v with
  | JUndefined | JNull => false
  | JBool b => b
  | JNumber n => negb (n =? 0)%Z
  | JString s => match s with EmptyString => false | String _ _ => true end
  | JArray _ | JObject _ => true
  end.

Fixpoint own_property (name : string) (fields : list (string * JSValue))
  : option JSValue :=
  match fields with
  | [] => None
  | (k, v) :: rest => if String.eqb k name then Some v else own_property name rest
  end.

(** [v.name] for a property name that no prototype defines (such as
    [recentRoots]): reading a property of [undefined] or [null] throws,
    an object answers with its own property, every other value with
    [undefined]. *)
Definition js_get (v : JSValue) (name : string) : result JSValue :=
  match v with
  | JUndefined | JNull => Throw TypeError
  | JObject fields => Ok (default JUndefined (own_property name fields))
  | _ => Ok JUndefined
  end.

Definition index_key (i : nat) : string :=
  NilZero.string_of_uint (Nat.to_uint i).

(** [v[i]] for an array index [i]. *)
Definition js_index (v : JSValue) (i : nat) : result JSValue :=
  match v with
  | JUndefined | JNull => Throw TypeError
  | JArray items => Ok (default JUndefined (items !! i))
  | JString s =>
      Ok (match String.get i s with
          | Some c => JString (String c EmptyString)
          | None => JUndefined
          end)
  | JObject fields => Ok (default JUndefined (own_property (index_key i) fields))
  | JBool _ | JNumber _ => Ok JUndefined
  end.

Definition is_undefined (v : JSValue) : bool :=
  match v with JUndefined => true | _ => false end.

(** ** The file system *)

(** Absolute, normalised paths: the segments below the file-system root. *)
Abbreviation path := (list string).

Inductive node :=
| Dir
| File (content : string).

Definition dirname (p : path) : path := removelast p.

(** ** The host: library functions the file calls *)

Record Host := {
  (** [path.isAbsolute] *)
  path_isAbsolute : string -> bool;
  (** [path.join] of two arguments *)
  path_join : string -> string -> string;
  (** [process.cwd()] *)
  process_cwd : string;
  (** [os.homedir()] *)
  os_homedir : path;
  (** [FileUri.create(p).toString()] *)
  FileUri_create : string -> string;
  (** [String.prototype.trim] *)
  trim : string -> string;
  (** [JSON.parse]; [None] when it throws a [SyntaxError] *)
  JSON_parse : string -> option JSValue;
  (** the text [fs.writeJson] stores for a value *)
  writeJson_text : JSValue -> string
}.

(** ** Command line: [WorkspaceCliContribution] *)

(** [yargs.Arguments]: [positional] is [args._], [root_dir] is
    [args['root-dir']] ([JUndefined] when the option is not given). *)
Record Arguments := {
  positional : list JSValue;
  root_dir : JSValue
}.

(** The tail of [setArguments], from [if (!path.isAbsolute(wsPath))] on.
    [path.isAbsolute] throws a [TypeError] on anything but a string. *)
Definition resolveWsPath (h : Host) (wsPath : JSValue) : result (option string) :=
  match wsPath with
  | JString p =>
      if negb (path_isAbsolute h p)
      then Ok (Some (path_join h (process_cwd h) p))
      else Ok (Some p)
  | _ => Throw TypeError
  end.

(** [setArguments]: [Ok v] is the value [workspaceRoot] is resolved with
    ([None] for [resolve()]); on [Throw] the deferred stays pending. *)
Definition setArguments (h : Host) (args : Arguments) : result (option string) :=
  let wsPath := default JUndefined (positional args !! 2%nat) in
  if negb (truthy wsPath) then
    let wsPath := root_dir args in
    if negb (truthy wsPath) then Ok None
    else resolveWsPath h wsPath
  else resolveWsPath h wsPath.

(** ** The world and the monad of awaited operations *)

(** [Deferred<T>] of [promise-util]: a promise with its [resolve]; settling
    a settled promise again changes nothing. *)
Inductive Deferred :=
| Pending
| Resolved (v : JSValue).

Definition Deferred_resolve (d : Deferred) (v : JSValue) : Deferred :=
  match d with
  | Pending => Resolved v
  | Resolved _ => d
  end.

(** What [logger] and [messageService] were asked to show. *)
Inductive Event :=
| LoggerWarn
| MessageWarn (actions : list string)
| MessageInfo (text : string).

Record World := {
  (** the file system *)
  files : gmap path node;
  (** [DefaultWorkspaceServer.root] *)
  root : Deferred;
  (** calls to the logger and the message service, oldest first *)
  trace : list Event
}.

Definition set_files (σ : gmap path node) (w : World) : World :=
  {| files := σ; root := root w; trace := trace w |}.
Definition set_root (d : Deferred) (w : World) : World :=
  {| files := files w; root := d; trace := trace w |}.
Definition emit (e : Event) (w : World) : World :=
  {| files := files w; root := root w; trace := (trace w ++ [e])%list |}.

(** A process that has just started: nothing resolved, nothing shown. *)
Definition boot (σ : gmap path node) : World :=
  {| files := σ; root := Pending; trace := [] |}.

Definition IO (A : Type) : Type := World -> result A * World.

Definition ret {A} (a : A) : IO A := fun w => (Ok a, w).

Definition bind {A B} (c : IO A) (k : A -> IO B) : IO B :=
  fun w =>
    match c w with
    | (Ok a, w') => k a w'
    | (Throw e, w') => (Throw e, w')
    end.

Notation "'await' x <- c ; k" := (bind c (fun x => k))
  (at level 10, x name, c at level 100, k at level 200,
   format "'[v' 'await'  x  <-  c ; '/' k ']'").
Notation "'run' c ; k" := (bind c (fun _ => k))
  (at level 10, c at level 100, k at level 200,
   format "'[v' 'run'  c ; '/' k ']'").

Definition lift {A} (r : result A) : IO A := fun w => (r, w).

Definition modify (f : World -> World) : IO unit := fun w => (Ok tt, f w).

(** [try { c } catch (e) { handler e }] *)
Definition try_catch {A} (c : IO A) (handler : error -> IO A) : IO A :=
  fun w =>
    match c w with
    | (Ok a, w') => (Ok a, w')
    | (Throw e, w') => handler e w'
    end.

(** A promise that is started and not awaited: its effects happen, its
    outcome (a rejection included) reaches nobody.  It is run to its end
    where it is started; how its steps interleave with what the caller
    does next is not represented. *)
Definition detached {A} (c : IO A) : IO unit := fun w => (Ok tt, (c w).2).

(** *** fs-extra *)

(** The root directory always exists; everything else is looked up. *)
Definition node_at (σ : gmap path node) (p : path) : option node :=
  match p with
  | [] => Some Dir
  | _ => σ !! p
  end.

Definition fs_pathExists (p : path) : IO bool :=
  fun w => (Ok (bool_decide (is_Some (node_at (files w) p))), w).

Definition fs_readFile (p : path) : IO string :=
  fun w =>
    match node_at (files w) p with
    | Some (File text) => (Ok text, w)
    | Some Dir => (Throw (FsError EISDIR), w)
    | None => (Throw (FsError ENOENT), w)
    end.

(** [mkdirs]: walks down from the root; [done] are the segments already
    known to be directories.  A regular file at the path itself is
    [EEXIST] ([mkdir] finds the name taken), a regular file at a component
    above it is [ENOTDIR]. *)
Fixpoint mkdirs_from (done : path) (rest : list string) (σ : gmap path node)
  : result unit * gmap path node :=
  match rest with
  | [] => (Ok tt, σ)
  | s :: rest' =>
      let p := (done ++ [s])%list in
      match node_at σ p with
      | Some Dir => mkdirs_from p rest' σ
      | Some (File _) =>
          (Throw (FsError (match rest' with [] => EEXIST | _ :: _ => ENOTDIR end)), σ)
      | None => mkdirs_from p rest' (<[p := Dir]> σ)
      end
  end.

Definition fs_mkdirs (p : path) : IO unit :=
  fun w => let '(r, σ) := mkdirs_from [] p (files w) in (r, set_files σ w).

Definition fs_writeFile (p : path) (text : string) : IO unit :=
  fun w =>
    match node_at (files w) p with
    | Some Dir => (Throw (FsError EISDIR), w)
    | _ =>
        match node_at (files w) (dirname p) with
        | Some Dir => (Ok tt, set_files (<[p := File text]> (files w)) w)
        | Some (File _) => (Throw (FsError ENOTDIR), w)
        | None => (Throw (FsError ENOENT), w)
        end
    end.

Definition fs_writeJson (h : Host) (p : path) (data : JSValue) : IO unit :=
  fs_writeFile p (writeJson_text h data).

(** [remove]: the entry and everything below it; a missing entry is fine. *)
Definition fs_remove (p : path) : IO unit :=
  modify (fun w => set_files (filter (fun e => ¬ p `prefix_of` e.1) (files w)) w).

Definition logger_warn : IO unit := modify (emit LoggerWarn).
Definition messageService_warn (actions : list string) : IO unit :=
  modify (emit (MessageWarn actions)).
Definition messageService_info (text : string) : IO unit :=
  modify (emit (MessageInfo text)).

(** ** [DefaultWorkspaceServer] *)

(** [path.resolve(os.homedir(), '.theia', 'recentworkspace.json')] *)
Definition getUserStoragePath (h : Host) : path :=
  (os_homedir h ++ [".theia"; "recentworkspace.json"])%list.

Module WorkspaceData.
(** The object literal [{ recentRoots: [...] }]. *)
Definition make (recentRoots : list string) : JSValue :=
  JObject [("recentRoots", JArray (JString <$> recentRoots))].

(** [WorkspaceData.is]: [data.recentRoots !== undefined] *)
Definition is_ (data : JSValue) : result bool :=
  match js_get data "recentRoots" with
  | Ok v => Ok (negb (is_undefined v))
  | Throw e => Throw e
  end.
End WorkspaceData.

Definition FIX_FILE : string := "Fix".
Definition DELETE_FILE : string := "Delete".

(** The callback given to [messageService.warn(...).then]; [selected] is
    the action the user picked, [None] when the prompt was dismissed. *)
Definition onSelected (file : path) (selected : option string) : IO unit :=
  if decide (selected = Some FIX_FILE) then
    try_catch
      (messageService_info "Once fixed, you should reload the application.")
      (fun _ => run messageService_warn []; logger_warn)
  else if decide (selected = Some DELETE_FILE) then
    detached (fs_remove file)
  else ret tt.

(** [readFromUserHome]: the stored value, [JUndefined] for no data.  Only
    [JSON.parse] stands inside the [try]; the answer to the prompt comes
    from the user, so it is an argument. *)
Definition readFromUserHome (h : Host) (selected : option string) : IO JSValue :=
  let file := getUserStoragePath h in
  await present <- fs_pathExists file;
  if (present : bool) then
    await rawContent <- fs_readFile file;
    let content := trim h rawContent in
    if negb (truthy (JString content)) then ret JUndefined
    else
      match JSON_parse h content with
      | None =>
          run logger_warn;
          run messageService_warn [FIX_FILE; DELETE_FILE];
          run detached (onSelected file selected);
          ret JUndefined
      | Some config =>
          await shaped <- lift (WorkspaceData.is_ config);
          if (shaped : bool) then ret config else ret JUndefined
      end
  else ret JUndefined.

(** [writeToUserHome] *)
Definition writeToUserHome (h : Host) (data : JSValue) : IO unit :=
  let file := getUserStoragePath h in
  await present <- fs_pathExists file;
  run (if (present : bool) then ret tt else fs_mkdirs (dirname file));
  fs_writeJson h file data.

(** [getRootURIFromCli], given the value [cliParams.workspaceRoot] was
    resolved with. *)
Definition getRootURIFromCli (h : Host) (arg : option string) : JSValue :=
  match arg with
  | Some a => JString (FileUri_create h a)
  | None => JUndefined
  end.

(** [init] *)
Definition init (h : Host) (selected : option string) (arg : option string)
  : IO unit :=
  let root0 := getRootURIFromCli h arg in
  await root1 <-
    (if negb (truthy root0) then
       await data <- readFromUserHome h selected;
       await recent <- (if truthy data then lift (js_get data "recentRoots")
                        else ret data);
       if truthy recent then lift (js_index recent 0) else ret root0
     else ret root0);
  modify (fun w => set_root (Deferred_resolve (root w) root1) w).

(** [getRoot]: the state of the promise it returns. *)
Definition getRoot (w : World) : Deferred := root w.

(** [setRoot] *)
Definition setRoot (h : Host) (uri : string) : IO unit :=
  run modify (set_root (Deferred_resolve Pending (JString uri)));
  detached (writeToUserHome h (WorkspaceData.make [uri])).

(** Start of the process: the command line is captured, then [init] runs.
    When [setArguments] throws, [workspaceRoot] is never resolved and
    [init] stays suspended at its first [await]. *)
Definition startup (h : Host) (selected : option string) (args : Arguments)
  : IO unit :=
  fun w =>
    match setArguments h args with
    | Ok arg => init h selected arg w
    | Throw e => (Throw e, w)
    end.

(** ** Vocabulary of the statements *)

(** Neither the positional argument nor [--root-dir] was given. *)
Definition no_cli_argument (args : Arguments) : Prop :=
  positional args !! 2%nat = None ∧ root_dir args = JUndefined.

(** The persisted file exists, is not blank, and [JSON.parse] reads its
    trimmed text as [v]. *)
Definition stored_json (h : Host) (σ : gmap path node) (v : JSValue) : Prop :=
  ∃ raw, σ !! getUserStoragePath h = Some (File raw)
         ∧ trim h raw ≠ ""
         ∧ JSON_parse h (trim h raw) = Some v.

(** The non-empty prefixes of [done ++ rest] that are longer than [done],
    shortest first: the directories [mkdirs_from done rest] visits. *)
Fixpoint ancestors_from (done : path) (rest : list string) : list path :=
  match rest with
  | [] => []
  | s :: rest' => (done ++ [s])%list :: ancestors_from (done ++ [s])%list rest'
  end.

Definition ancestors (p : path) : list path := ancestors_from [] p.

Definition not_a_file (σ : gmap path node) (q : path) : bool :=
  match σ !! q with
  | Some (File _) => false
  | _ => true
  end.

(** No regular file stands where [mkdirs p] needs a directory. *)
Definition clear_way (σ : gmap path node) (p : path) : bool :=
  forallb (not_a_file σ) (ancestors p).

(** The states of the persisted file in which it can be written: it does
    not exist and its folder can be made, or it is a regular file in its
    folder. *)
Definition writable (h : Host) (σ : gmap path node) : Prop :=
  (σ !! getUserStoragePath h = None
   ∧ clear_way σ (dirname (getUserStoragePath h)) = true)
  ∨ (∃ text, σ !! getUserStoragePath h = Some (File text)
             ∧ σ !! dirname (getUserStoragePath h) = Some Dir).

(** [null] and [undefined]: the values no property can be read from. *)
Definition nullish (v : JSValue) : bool :=
  match v with
  | JUndefined | JNull => true
  | _ => false
  end.

Definition is_string (v : JSValue) : bool :=
  match v with
  | JString _ => true
  | _ => false
  end.

(** The persisted file exists, is not blank, and [JSON.parse] rejects its
    trimmed text. *)
Definition malformed (h : Host) (σ : gmap path node) : Prop :=
  ∃ raw, σ !! getUserStoragePath h = Some (File raw)
         ∧ trim h raw ≠ ""
         ∧ JSON_parse h (trim h raw) = None.

(** The states of the persisted file on which [readFromUserHome] throws:
    its path is a directory, or its text parses to [null]. *)
Definition unreadable (h : Host) (σ : gmap path node) : Prop :=
  σ !! getUserStoragePath h = Some Dir
  ∨ (∃ v, stored_json h σ v ∧ nullish v = true).

(** The value the command line supplies: [args._[2]] when it is truthy,
    [args['root-dir']] otherwise. *)
Definition supplied (args : Arguments) (v : JSValue) : Prop :=
  (positional args !! 2%nat = Some v ∧ truthy v = true)
  ∨ (truthy (default JUndefined (positional args !! 2%nat)) = false
     ∧ root_dir args = v).


(** What the logger and the message service are asked to show when the
    file does not parse and the prompt is answered with [selected]. *)
Definition parse_error_messages (selected : option string) : list Event :=
  [LoggerWarn; MessageWarn [FIX_FILE; DELETE_FILE]]
  ++ (if decide (selected = Some FIX_FILE)
      then [MessageInfo "Once fixed, you should reload the application."]
      else []).

(** ** A reference host

    One concrete [Host], used to run the model on examples: POSIX paths,
    [file://] URIs of paths that need no percent-encoding, ASCII white
    space, and a reader and a printer for the fragment of JSON without
    fractions, exponents and [\u] escapes. *)
Module Posix.

Definition dquote : ascii := ascii_of_nat 34.
Definition backslash : ascii := ascii_of_nat 92.
Definition newline : ascii := ascii_of_nat 10.

Definition isAbsolute (p : string) : bool :=
  match p with
  | String c _ => Ascii.eqb c "/"
  | EmptyString => false
  end.

(** Right for a normalised first argument and a second one without
    [.], [..] or doubled separators. *)
Definition join (a b : string) : string := a +:+ "/" +:+ b.

Definition fileUri (p : string) : string := "file://" +:+ p.

Definition is_space (c : ascii) : bool :=
  let n := nat_of_ascii c in
  (n =? 32)%nat || ((9 <=? n)%nat && (n <=? 13)%nat).

Fixpoint drop_spaces (s : list ascii) : list ascii :=
  match s with
  | c :: r => if is_space c then drop_spaces r else s
  | [] => []
  end.

Definition trim_ascii (s : string) : string :=
  string_of_list_ascii
    (rev (drop_spaces (rev (drop_spaces (list_ascii_of_string s))))).

(** *** Reading JSON *)

Definition is_ws (c : ascii) : bool :=
  let n := nat_of_ascii c in
  (n =? 32)%nat || (n =? 9)%nat || (n =? 10)%nat || (n =? 13)%nat.

Fixpoint skip_ws (s : list ascii) : list ascii :=
  match s with
  | c :: r => if is_ws c then skip_ws r else s
  | [] => []
  end.

Fixpoint strip (word : list ascii) (s : list ascii) : option (list ascii) :=
  match word, s with
  | [], _ => Some s
  | a :: word', c :: r => if Ascii.eqb a c then strip word' r else None
  | _ :: _, [] => None
  end.

Definition unescape (c : ascii) : option ascii :=
  if Ascii.eqb c dquote then Some dquote
  else if Ascii.eqb c backslash then Some backslash
  else if Ascii.eqb c "/" then Some "/"%char
  else if Ascii.eqb c "n" then Some newline
  else if Ascii.eqb c "t" then Some (ascii_of_nat 9)
  else if Ascii.eqb c "r" then Some (ascii_of_nat 13)
  else if Ascii.eqb c "b" then Some (ascii_of_nat 8)
  else if Ascii.eqb c "f" then Some (ascii_of_nat 12)
  else None.

(** The characters of a string literal, after its opening quote. *)
Fixpoint parse_chars (s : list ascii) : option (string * list ascii) :=
  match s with
  | [] => None
  | c :: r =>
      if Ascii.eqb c dquote then Some (EmptyString, r)
      else if Ascii.eqb c backslash then
        match r with
        | e :: r' =>
            match unescape e, parse_chars r' with
            | Some ch, Some (str, rest) => Some (String ch str, rest)
            | _, _ => None
            end
        | [] => None
        end
      else if (nat_of_ascii c <? 32)%nat then None
      else
        match parse_chars r with
        | Some (str, rest) => Some (String c str, rest)
        | None => None
        end
  end.

Definition digit (c : ascii) : option Z :=
  let n := nat_of_ascii c in
  if (48 <=? n)%nat && (n <=? 57)%nat then Some (Z.of_nat (n - 48)) else None.

Fixpoint parse_digits (acc : Z) (s : list ascii) : Z * list ascii :=
  match s with
  | c :: r =>
      match digit c with
      | Some d => parse_digits (10 * acc + d) r
      | None => (acc, s)
      end
  | [] => (acc, [])
  end.

(** An integer: [0], or digits that do not start with [0]; a fraction or
    an exponent after it is outside the fragment. *)
Definition parse_natural (s : list ascii) : option (Z * list ascii) :=
  match s with
  | c :: r =>
      match digit c with
      | Some d =>
          let '(n, rest) := if (d =? 0)%Z then (0%Z, r) else parse_digits d r in
          match rest with
          | c' :: _ =>
              if match digit c' with Some _ => true | None => false end
                 || Ascii.eqb c' "." || Ascii.eqb c' "e"
                 || Ascii.eqb c' "E"
              then None else Some (n, rest)
          | [] => Some (n, rest)
          end
      | None => None
      end
  | [] => None
  end.

(** A later member with the same key replaces the value of the earlier
    one, as [JSON.parse] does. *)
Fixpoint put_member (k : string) (v : JSValue) (fields : list (string * JSValue))
  : list (string * JSValue) :=
  match fields with
  | [] => [(k, v)]
  | (k', v') :: rest =>
      if String.eqb k' k then (k', v) :: rest else (k', v') :: put_member k v rest
  end.

Fixpoint parse_value (fuel : nat) (s : list ascii) {struct fuel}
  : option (JSValue * list ascii) :=
  match fuel with
  | O => None
  | S fuel' =>
      match skip_ws s with
      | [] => None
      | c :: r =>
          if Ascii.eqb c "[" then
            match skip_ws r with
            | c' :: r' =>
                if Ascii.eqb c' "]" then Some (JArray [], r')
                else
                  match parse_elements fuel' r with
                  | Some (items, rest) => Some (JArray items, rest)
                  | None => None
                  end
            | [] => None
            end
          else if Ascii.eqb c "{" then
            match skip_ws r with
            | c' :: r' =>
                if Ascii.eqb c' "}" then Some (JObject [], r')
                else
                  match parse_members fuel' [] r with
                  | Some (fields, rest) => Some (JObject fields, rest)
                  | None => None
                  end
            | [] => None
            end
          else if Ascii.eqb c dquote then
            match parse_chars r with
            | Some (str, rest) => Some (JString str, rest)
            | None => None
            end
          else if Ascii.eqb c "-" then
            match parse_natural r with
            | Some (n, rest) => Some (JNumber (- n), rest)
            | None => None
            end
          else
            match strip (list_ascii_of_string "null") (c :: r),
                  strip (list_ascii_of_string "true") (c :: r),
                  strip (list_ascii_of_string "false") (c :: r) with
            | Some rest, _, _ => Some (JNull, rest)
            | _, Some rest, _ => Some (JBool true, rest)
            | _, _, Some rest => Some (JBool false, rest)
            | None, None, None =>
                match parse_natural (c :: r) with
                | Some (n, rest) => Some (JNumber n, rest)
                | None => None
                end
            end
      end
  end
with parse_elements (fuel : nat) (s : list ascii) {struct fuel}
  : option (list JSValue * list ascii) :=
  match fuel with
  | O => None
  | S fuel' =>
      match parse_value fuel' s with
      | Some (v, r) =>
          match skip_ws r with
          | c :: r' =>
              if Ascii.eqb c "," then
                match parse_elements fuel' r' with
                | Some (vs, rest) => Some (v :: vs, rest)
                | None => None
                end
              else if Ascii.eqb c "]" then Some ([v], r')
              else None
          | [] => None
          end
      | None => None
      end
  end
with parse_members (fuel : nat) (seen : list (string * JSValue))
       (s : list ascii) {struct fuel}
  : option (list (string * JSValue) * list ascii) :=
  match fuel with
  | O => None
  | S fuel' =>
      match skip_ws s with
      | q :: r =>
          if Ascii.eqb q dquote then
            match parse_chars r with
            | Some (key, r1) =>
                match skip_ws r1 with
                | colon :: r2 =>
                    if Ascii.eqb colon ":" then
                      match parse_value fuel' r2 with
                      | Some (v, r3) =>
                          let seen' := put_member key v seen in
                          match skip_ws r3 with
                          | c :: r4 =>
                              if Ascii.eqb c "," then parse_members fuel' seen' r4
                              else if Ascii.eqb c "}" then Some (seen', r4)
                              else None
                          | [] => None
                          end
                      | None => None
                      end
                    else None
                | [] => None
                end
            | None => None
            end
          else None
      | [] => None
      end
  end.

Definition parse (text : string) : option JSValue :=
  let s := list_ascii_of_string text in
  match parse_value (2 * List.length s + 2) s with
  | Some (v, rest) =>
      match skip_ws rest with
      | [] => Some v
      | _ :: _ => None
      end
  | None => None
  end.

(** *** Printing JSON *)

Fixpoint escape (s : string) : string :=
  match s with
  | EmptyString => EmptyString
  | String c r =>
      if Ascii.eqb c dquote || Ascii.eqb c backslash
      then String backslash (String c (escape r))
      else if Ascii.eqb c newline then String backslash (String "n" (escape r))
      else String c (escape r)
  end.

Definition quoted (s : string) : string :=
  String dquote (escape s +:+ String dquote EmptyString).

Fixpoint stringify (v : JSValue) : string :=
  match v with
  | JUndefined | JNull => "null"
  | JBool true => "true"
  | JBool false => "false"
  | JNumber n => NilZero.string_of_int (Z.to_int n)
  | JString s => quoted s
  | JArray items =>
      "[" +:+
      (fix elements (l : list JSValue) : string :=
         match l with
         | [] => ""
         | x :: r =>
             match r with
             | [] => stringify x
             | _ :: _ => stringify x +:+ "," +:+ elements r
             end
         end) items +:+ "]"
  | JObject fields =>
      "{" +:+
      (fix members (l : list (string * JSValue)) : string :=
         match l with
         | [] => ""
         | (k, x) :: r =>
             match r with
             | [] => quoted k +:+ ":" +:+ stringify x
             | _ :: _ => quoted k +:+ ":" +:+ stringify x +:+ "," +:+ members r
             end
         end) fields +:+ "}"
  end.

(** jsonfile ends the text with a line feed. *)
Definition writeJson (v : JSValue) : string :=
  stringify v +:+ String newline EmptyString.

Definition host : Host := {|
  path_isAbsolute := isAbsolute;
  path_join := join;
  process_cwd := "/work";
  os_homedir := ["home"; "user"];
  FileUri_create := fileUri;
  trim := trim_ascii;
  JSON_parse := parse;
  writeJson_text := writeJson
|}.

(** [<home>/.theia/recentworkspace.json] holding [text], in its folder. *)
Definition stored (text : string) : gmap path node :=
  <[getUserStoragePath host := File text]>
    (<[["home"; "user"; ".theia"] := Dir]>
       (<[["home"; "user"] := Dir]> (<[["home"] := Dir]> ∅))).

(** The home directory alone. *)
Definition fresh : gmap path node :=
  <[["home"; "user"] := Dir]> (<[["home"] := Dir]> ∅).

(** [node script] and nothing else on the command line. *)
Definition bare : Arguments :=
  {| positional := [JString "node"; JString "main.js"]; root_dir := JUndefined |}.
End Posix.

Example posix_parse_null : Posix.parse "  null " = Some JNull.
Proof. vm_compute. reflexivity. Qed.

Example posix_roundtrip :
  Posix.parse (Posix.writeJson (WorkspaceData.make ["file:///a"; "x\y"]))
  = Some (WorkspaceData.make ["file:///a"; "x\y"]).
Proof. vm_compute. reflexivity. Qed.

Example posix_lookup : Posix.stored "abc" !! getUserStoragePath Posix.host = Some (File "abc").
Proof. vm_compute. reflexivity. Qed.

(** ** Values and paths *)

Lemma truthy_string (s : string) : s ≠ "" → truthy (JString s) = true.
Proof. destruct s; [congruence | reflexivity]. Qed.

Lemma falsy_string (s : string) : truthy (JString s) = false → s = "".
Proof. destruct s; [reflexivity | discriminate]. Qed.

Lemma storage_lookup (h : Host) (σ : gmap path node) :
  node_at σ (getUserStoragePath h) = σ !! getUserStoragePath h.
Proof.
  unfold getUserStoragePath, node_at.
  destruct (os_homedir h); reflexivity.
Qed.

Lemma storage_dirname (h : Host) :
  dirname (getUserStoragePath h) = (os_homedir h ++ [".theia"])%list.
Proof.
  unfold dirname, getUserStoragePath.
  change [".theia"; "recentworkspace.json"]
    with ([".theia"] ++ ["recentworkspace.json"])%list.
  rewrite app_assoc. apply removelast_last.
Qed.

(** ** The command line *)

Lemma setArguments_positional (h : Host) (args : Arguments) (v : JSValue) :
  positional args !! 2%nat = Some v → truthy v = true →
  setArguments h args = resolveWsPath h v.
Proof.
  intros Hv Ht. unfold setArguments. rewrite Hv. simpl. rewrite Ht. reflexivity.
Qed.

Lemma setArguments_fallback (h : Host) (args : Arguments) :
  truthy (default JUndefined (positional args !! 2%nat)) = false →
  setArguments h args
  = if truthy (root_dir args) then resolveWsPath h (root_dir args) else Ok None.
Proof.
  intros Hf. unfold setArguments. rewrite Hf. simpl.
  destruct (truthy (root_dir args)); reflexivity.
Qed.

Lemma setArguments_none (h : Host) (args : Arguments) :
  no_cli_argument args → setArguments h args = Ok None.
Proof.
  intros [Hp Hr]. rewrite setArguments_fallback.
  - rewrite Hr. reflexivity.
  - rewrite Hp. reflexivity.
Qed.

Lemma short_positional (args : Arguments) :
  (List.length (positional args) < 3)%nat
  ∨ (∃ v, positional args !! 2%nat = Some v ∧ truthy v = false) →
  truthy (default JUndefined (positional args !! 2%nat)) = false.
Proof.
  intros [Hlen | (v & Hv & Hf)].
  - rewrite lookup_ge_None_2 by lia. reflexivity.
  - rewrite Hv. exact Hf.
Qed.

(** ** [init] on each source of the root *)

Lemma init_cli (h : Host) (selected : option string) (a : string) (w : World) :
  FileUri_create h a ≠ "" →
  init h selected (Some a) w
  = (Ok tt, set_root (Deferred_resolve (root w) (JString (FileUri_create h a))) w).
Proof.
  intros Hne. unfold init, getRootURIFromCli.
  rewrite (truthy_string _ Hne). reflexivity.
Qed.

Lemma init_no_cli (h : Host) (selected : option string) (w : World) :
  init h selected None w
  = match readFromUserHome h selected w with
    | (Ok data, w') =>
        match (if truthy data then js_get data "recentRoots" else Ok data) with
        | Ok recent =>
            match (if truthy recent then js_index recent 0 else Ok JUndefined) with
            | Ok r => (Ok tt, set_root (Deferred_resolve (root w') r) w')
            | Throw e => (Throw e, w')
            end
        | Throw e => (Throw e, w')
        end
    | (Throw e, w') => (Throw e, w')
    end.
Proof.
  unfold init, bind, lift, ret, modify. simpl.
  destruct (readFromUserHome h selected w) as [[data | e] w']; [| reflexivity].
  destruct (truthy data); simpl.
  - destruct (js_get data "recentRoots") as [recent | e]; [| reflexivity].
    destruct (truthy recent); simpl; [| reflexivity].
    destruct (js_index recent 0); reflexivity.
  - destruct (truthy data) eqn:Hd; simpl; [| reflexivity].
    destruct (js_index data 0); reflexivity.
Qed.

(** ** [readFromUserHome] on each state of the persisted file *)

Lemma read_missing (h : Host) (selected : option string) (w : World) :
  files w !! getUserStoragePath h = None →
  readFromUserHome h selected w = (Ok JUndefined, w).
Proof.
  intros Hnone. unfold readFromUserHome, bind, fs_pathExists.
  rewrite storage_lookup, Hnone.
  rewrite bool_decide_eq_false_2 by (intros [? ?]; discriminate).
  reflexivity.
Qed.

Lemma read_present (h : Host) (selected : option string) (w : World) (raw : string) :
  files w !! getUserStoragePath h = Some (File raw) →
  readFromUserHome h selected w
  = if negb (truthy (JString (trim h raw))) then (Ok JUndefined, w)
    else
      match JSON_parse h (trim h raw) with
      | None =>
          (Ok JUndefined,
           (onSelected (getUserStoragePath h) selected
              (emit (MessageWarn [FIX_FILE; DELETE_FILE]) (emit LoggerWarn w))).2)
      | Some config =>
          match WorkspaceData.is_ config with
          | Ok true => (Ok config, w)
          | Ok false => (Ok JUndefined, w)
          | Throw e => (Throw e, w)
          end
      end.
Proof.
  intros Hfile. unfold readFromUserHome, bind, fs_pathExists, fs_readFile.
  rewrite storage_lookup, Hfile.
  rewrite bool_decide_eq_true_2 by eauto.
  cbv beta iota. rewrite storage_lookup, Hfile. cbv beta iota.
  destruct (negb (truthy (JString (trim h raw)))); [reflexivity |].
  destruct (JSON_parse h (trim h raw)) as [config |].
  - unfold lift. destruct (WorkspaceData.is_ config) as [[|] | e]; reflexivity.
  - reflexivity.
Qed.

Lemma read_blank (h : Host) (selected : option string) (w : World) (raw : string) :
  files w !! getUserStoragePath h = Some (File raw) → trim h raw = "" →
  readFromUserHome h selected w = (Ok JUndefined, w).
Proof.
  intros Hfile Hblank. rewrite (read_present _ _ _ _ Hfile), Hblank. reflexivity.
Qed.

Lemma read_parsed (h : Host) (selected : option string) (w : World) (v : JSValue) :
  stored_json h (files w) v →
  readFromUserHome h selected w
  = match WorkspaceData.is_ v with
    | Ok true => (Ok v, w)
    | Ok false => (Ok JUndefined, w)
    | Throw e => (Throw e, w)
    end.
Proof.
  intros (raw & Hfile & Hne & Hparse).
  rewrite (read_present _ _ _ _ Hfile), (truthy_string _ Hne), Hparse. reflexivity.
Qed.

Lemma read_malformed (h : Host) (selected : option string) (w : World) (raw : string) :
  files w !! getUserStoragePath h = Some (File raw) →
  trim h raw ≠ "" → JSON_parse h (trim h raw) = None →
  readFromUserHome h selected w
  = (Ok JUndefined,
     (onSelected (getUserStoragePath h) selected
        (emit (MessageWarn [FIX_FILE; DELETE_FILE]) (emit LoggerWarn w))).2).
Proof.
  intros Hfile Hne Hparse.
  rewrite (read_present _ _ _ _ Hfile), (truthy_string _ Hne), Hparse. reflexivity.
Qed.

(** The callback leaves the files alone unless the answer is [Delete]. *)
Lemma onSelected_files (file : path) (selected : option string) (w : World) :
  selected ≠ Some DELETE_FILE →
  files (onSelected file selected w).2 = files w.
Proof.
  intros Hsel. unfold onSelected.
  destruct (decide (selected = Some FIX_FILE)); [reflexivity |].
  destruct (decide (selected = Some DELETE_FILE)); [contradiction | reflexivity].
Qed.

Lemma onSelected_delete (file : path) (w : World) :
  files (onSelected file (Some DELETE_FILE) w).2 !! file = None.
Proof.
  unfold onSelected. simpl.
  apply map_lookup_filter_None. right. intros x _ Hnot. apply Hnot. reflexivity.
Qed.

Lemma onSelected_root (file : path) (selected : option string) (w : World) :
  root (onSelected file selected w).2 = root w.
Proof.
  unfold onSelected.
  destruct (decide (selected = Some FIX_FILE)); [reflexivity |].
  destruct (decide (selected = Some DELETE_FILE)); reflexivity.
Qed.

(** Closes [run = (r, w') ∧ getRoot run.2 = d] style goals from the run. *)
Ltac from_run Hrun := split; [exact Hrun | rewrite Hrun; reflexivity].

(** ** Resolution from the command line *)

(** C9: the positional workspace path is [args._[2]].  A non-empty string
    in third place is what gets captured (made absolute against the
    working directory), whatever the first two elements and [--root-dir]
    hold.  When the positional list has fewer than three elements, or its
    third element is falsy, the positional form counts as absent: the
    result is the one for an empty positional list, a non-empty
    [--root-dir] string is what gets captured, and without a truthy
    [--root-dir] the captured value is unset. *)
Theorem setArguments_reads_third_positional (h : Host) (args : Arguments) :
  (∀ p, positional args !! 2%nat = Some (JString p) → p ≠ "" →
     setArguments h args
     = Ok (Some (if path_isAbsolute h p then p
                 else path_join h (process_cwd h) p)))
  ∧ ((List.length (positional args) < 3)%nat
     ∨ (∃ v, positional args !! 2%nat = Some v ∧ truthy v = false) →
     setArguments h args
     = setArguments h {| positional := []; root_dir := root_dir args |}
     ∧ (∀ d, root_dir args = JString d → d ≠ "" →
          setArguments h args
          = Ok (Some (if path_isAbsolute h d then d
                      else path_join h (process_cwd h) d)))
     ∧ (truthy (root_dir args) = false → setArguments h args = Ok None)).
Proof.
  split.
  - intros p Hpos Hne.
    rewrite (setArguments_positional h args _ Hpos (truthy_string p Hne)).
    simpl. destruct (path_isAbsolute h p); reflexivity.
  - intros Hshort. apply short_positional in Hshort.
    rewrite (setArguments_fallback h args Hshort).
    split; [| split].
    + unfold setArguments. simpl. destruct (truthy (root_dir args)); reflexivity.
    + intros d Hd Hne. rewrite Hd, (truthy_string d Hne). simpl.
      destruct (path_isAbsolute h d); reflexivity.
    + intros Hf. rewrite Hf. reflexivity.
Qed.

Lemma setArguments_reads_third_positional_witness :
  setArguments Posix.host
    {| positional := [JString "/first"; JString "main.js"; JString "third"];
       root_dir := JString "/other" |}
  = Ok (Some "/work/third")
  ∧ setArguments Posix.host
      {| positional := [JString "/ws"; JString "main.js"];
         root_dir := JString "proj" |}
    = Ok (Some "/work/proj").
Proof.
  split.
  - refine (proj1 (setArguments_reads_third_positional Posix.host _) "third" _ _).
    + reflexivity.
    + discriminate.
  - refine (proj1 (proj2 (proj2 (setArguments_reads_third_positional Posix.host
                                   {| positional := [JString "/ws"; JString "main.js"];
                                      root_dir := JString "proj" |}) _))
              "proj" eq_refl _).
    + left. simpl. lia.
    + discriminate.
Defined.

(** C1: an absolute path [P] given as the positional argument decides the
    root: [init] resolves [getRoot()] with the file URI of [P] and does not
    look at the persisted file, whatever the file system holds. *)
Theorem cli_absolute_path_takes_precedence
    (h : Host) (selected : option string) (args : Arguments)
    (σ : gmap path node) (P : string) :
  positional args !! 2%nat = Some (JString P) →
  path_isAbsolute h P = true →
  P ≠ "" →
  FileUri_create h P ≠ "" →
  startup h selected args (boot σ)
  = (Ok tt, set_root (Resolved (JString (FileUri_create h P))) (boot σ))
  ∧ getRoot (startup h selected args (boot σ)).2
    = Resolved (JString (FileUri_create h P)).
Proof.
  intros Hpos Habs HP Huri.
  assert (Hrun : startup h selected args (boot σ)
                 = (Ok tt, set_root (Resolved (JString (FileUri_create h P))) (boot σ))).
  { unfold startup.
    rewrite (setArguments_positional h args _ Hpos (truthy_string P HP)).
    simpl. rewrite Habs. simpl. rewrite (init_cli h selected P _ Huri). reflexivity. }
  from_run Hrun.
Qed.

Lemma cli_absolute_path_takes_precedence_witness :
  getRoot
    (startup Posix.host None
       {| positional := [JString "node"; JString "main.js"; JString "/ws"];
          root_dir := JUndefined |}
       (boot (Posix.stored (Posix.writeJson (WorkspaceData.make ["file:///old"]))))).2
  = Resolved (JString "file:///ws").
Proof.
  refine (proj2 (cli_absolute_path_takes_precedence Posix.host None _ _ "/ws" _ _ _ _)).
  - reflexivity.
  - reflexivity.
  - discriminate.
  - discriminate.
Defined.

(** C6, as the code has it: a relative path [R] that reaches
    [setArguments] as a non-empty string, in the positional form or through
    [--root-dir], is captured as [join(cwd, R)], and the root resolves to
    the file URI of that joined path. *)
Theorem cli_relative_path_joined_with_cwd
    (h : Host) (selected : option string) (args : Arguments)
    (σ : gmap path node) (R : string) :
  positional args !! 2%nat = Some (JString R)
  ∨ (truthy (default JUndefined (positional args !! 2%nat)) = false
     ∧ root_dir args = JString R) →
  R ≠ "" →
  path_isAbsolute h R = false →
  FileUri_create h (path_join h (process_cwd h) R) ≠ "" →
  setArguments h args = Ok (Some (path_join h (process_cwd h) R))
  ∧ getRoot (startup h selected args (boot σ)).2
    = Resolved (JString (FileUri_create h (path_join h (process_cwd h) R))).
Proof.
  intros Hgiven HR Hrel Huri.
  assert (Hcap : setArguments h args = Ok (Some (path_join h (process_cwd h) R))).
  { destruct Hgiven as [Hpos | [Hfalsy Hopt]].
    - rewrite (setArguments_positional h args _ Hpos (truthy_string R HR)).
      simpl. rewrite Hrel. reflexivity.
    - rewrite (setArguments_fallback h args Hfalsy), Hopt, (truthy_string R HR).
      simpl. rewrite Hrel. reflexivity. }
  split; [exact Hcap |].
  unfold startup. rewrite Hcap, (init_cli h selected _ _ Huri). reflexivity.
Qed.

Lemma cli_relative_path_joined_with_cwd_witness :
  setArguments Posix.host
    {| positional := [JString "node"; JString "main.js"; JString "proj"];
       root_dir := JUndefined |}
  = Ok (Some "/work/proj")
  ∧ getRoot
      (startup Posix.host None
         {| positional := [JString "node"; JString "main.js"; JString "proj"];
            root_dir := JUndefined |}
         (boot Posix.fresh)).2
    = Resolved (JString "file:///work/proj").
Proof.
  refine (cli_relative_path_joined_with_cwd Posix.host None _ _ "proj" _ _ _ _).
  - left. reflexivity.
  - discriminate.
  - reflexivity.
  - discriminate.
Defined.

(** C6, for every relative path, fails.  The empty string is not absolute,
    yet given in third place it is falsy and counts as no argument: nothing
    is captured and the root is not the URI of [join(cwd, "")].  A folder
    named [123] reaches [setArguments] as the number [123]:
    [path.isAbsolute] throws, nothing is captured and [getRoot()] stays
    pending. *)
Lemma relative_path_not_always_joined :
  (path_isAbsolute Posix.host "" = false
   ∧ setArguments Posix.host
       {| positional := [JString "node"; JString "main.js"; JString ""];
          root_dir := JUndefined |}
     = Ok None
   ∧ Ok None ≠ Ok (Some (path_join Posix.host (process_cwd Posix.host) ""))
   ∧ getRoot
       (startup Posix.host None
          {| positional := [JString "node"; JString "main.js"; JString ""];
             root_dir := JUndefined |}
          (boot Posix.fresh)).2
     = Resolved JUndefined)
  ∧ (setArguments Posix.host
       {| positional := [JString "node"; JString "main.js"; JNumber 123];
          root_dir := JUndefined |}
     = Throw TypeError
     ∧ getRoot
         (startup Posix.host None
            {| positional := [JString "node"; JString "main.js"; JNumber 123];
               root_dir := JUndefined |}
            (boot Posix.fresh)).2
       = Pending).
Proof.
  split.
  - split; [reflexivity |]. split; [reflexivity |].
    split; [discriminate | vm_compute; reflexivity].
  - split; reflexivity.
Qed.

(** ** Resolution from the persisted file *)

Lemma startup_no_cli (h : Host) (selected : option string) (args : Arguments)
    (w : World) :
  no_cli_argument args → startup h selected args w = init h selected None w.
Proof.
  intros Hno. unfold startup. rewrite (setArguments_none h args Hno). reflexivity.
Qed.

Lemma init_no_data (h : Host) (selected : option string) (w w' : World) :
  readFromUserHome h selected w = (Ok JUndefined, w') →
  init h selected None w
  = (Ok tt, set_root (Deferred_resolve (root w') JUndefined) w').
Proof.
  intros Hread. rewrite init_no_cli, Hread. reflexivity.
Qed.

(** What [init] does with a stored object that has a [recentRoots]. *)
Lemma init_stored_object (h : Host) (selected : option string) (w : World)
    (fields : list (string * JSValue)) (recent : JSValue) :
  stored_json h (files w) (JObject fields) →
  own_property "recentRoots" fields = Some recent →
  is_undefined recent = false →
  init h selected None w
  = match (if truthy recent then js_index recent 0 else Ok JUndefined) with
    | Ok r => (Ok tt, set_root (Deferred_resolve (root w) r) w)
    | Throw e => (Throw e, w)
    end.
Proof.
  intros Hstored Hprop Hdef.
  rewrite init_no_cli, (read_parsed h selected w _ Hstored).
  unfold WorkspaceData.is_. simpl. rewrite Hprop. simpl. rewrite Hdef. simpl.
  rewrite Hprop. reflexivity.
Qed.

(** C7: with no command-line argument, a persisted file that does not
    exist, or whose trimmed contents are empty, is no data: the read
    returns [undefined] without touching anything and [getRoot()] resolves
    to [undefined]. *)
Theorem missing_or_blank_file_resolves_empty
    (h : Host) (selected : option string) (args : Arguments)
    (σ : gmap path node) :
  no_cli_argument args →
  σ !! getUserStoragePath h = None
  ∨ (∃ raw, σ !! getUserStoragePath h = Some (File raw) ∧ trim h raw = "") →
  readFromUserHome h selected (boot σ) = (Ok JUndefined, boot σ)
  ∧ startup h selected args (boot σ)
    = (Ok tt, set_root (Resolved JUndefined) (boot σ))
  ∧ getRoot (startup h selected args (boot σ)).2 = Resolved JUndefined.
Proof.
  intros Hno Hfile.
  assert (Hread : readFromUserHome h selected (boot σ) = (Ok JUndefined, boot σ)).
  { destruct Hfile as [Hnone | (raw & Hraw & Hblank)].
    - apply read_missing. exact Hnone.
    - apply (read_blank h selected (boot σ) raw); assumption. }
  assert (Hrun : startup h selected args (boot σ)
                 = (Ok tt, set_root (Resolved JUndefined) (boot σ))).
  { rewrite (startup_no_cli h selected args _ Hno).
    rewrite (init_no_data h selected _ _ Hread). reflexivity. }
  split; [exact Hread |]. from_run Hrun.
Qed.

Lemma missing_or_blank_file_resolves_empty_witness :
  getRoot (startup Posix.host None Posix.bare (boot (Posix.stored "  "))).2
  = Resolved JUndefined.
Proof.
  refine (proj2 (proj2
            (missing_or_blank_file_resolves_empty Posix.host None _ _ _ _))).
  - split; reflexivity.
  - right. exists "  ". split; vm_compute; reflexivity.
Defined.

(** C10: with no command-line argument and a persisted object whose
    [recentRoots] is the empty array, resolution completes and [getRoot()]
    resolves to [undefined]: [[][0]] is [undefined], not an error. *)
Theorem empty_recentRoots_resolves_empty
    (h : Host) (selected : option string) (args : Arguments)
    (σ : gmap path node) (fields : list (string * JSValue)) :
  no_cli_argument args →
  stored_json h σ (JObject fields) →
  own_property "recentRoots" fields = Some (JArray []) →
  startup h selected args (boot σ)
  = (Ok tt, set_root (Resolved JUndefined) (boot σ))
  ∧ getRoot (startup h selected args (boot σ)).2 = Resolved JUndefined.
Proof.
  intros Hno Hstored Hprop.
  assert (Hrun : startup h selected args (boot σ)
                 = (Ok tt, set_root (Resolved JUndefined) (boot σ))).
  { rewrite (startup_no_cli h selected args _ Hno).
    rewrite (init_stored_object h selected (boot σ) fields _ Hstored Hprop eq_refl).
    reflexivity. }
  from_run Hrun.
Qed.

Lemma empty_recentRoots_resolves_empty_witness :
  getRoot
    (startup Posix.host None Posix.bare
       (boot (Posix.stored (Posix.writeJson (WorkspaceData.make []))))).2
  = Resolved JUndefined.
Proof.
  refine (proj2 (empty_recentRoots_resolves_empty Posix.host None _ _
                   [("recentRoots", JArray [])] _ _ _)).
  - split; reflexivity.
  - exists (Posix.writeJson (WorkspaceData.make [])).
    split; [| split]; vm_compute; [reflexivity | discriminate | reflexivity].
  - reflexivity.
Defined.

(** C2, as the code has it: with no command-line argument and a persisted
    object whose [recentRoots] is an array that starts with the string [X],
    [getRoot()] resolves to [X] itself, exactly as stored; nothing converts
    it, and the elements after the first play no part. *)
Theorem first_recent_root_returned_verbatim
    (h : Host) (selected : option string) (args : Arguments)
    (σ : gmap path node) (fields : list (string * JSValue))
    (X : string) (later : list JSValue) :
  no_cli_argument args →
  stored_json h σ (JObject fields) →
  own_property "recentRoots" fields = Some (JArray (JString X :: later)) →
  startup h selected args (boot σ)
  = (Ok tt, set_root (Resolved (JString X)) (boot σ))
  ∧ getRoot (startup h selected args (boot σ)).2 = Resolved (JString X).
Proof.
  intros Hno Hstored Hprop.
  assert (Hrun : startup h selected args (boot σ)
                 = (Ok tt, set_root (Resolved (JString X)) (boot σ))).
  { rewrite (startup_no_cli h selected args _ Hno).
    rewrite (init_stored_object h selected (boot σ) fields _ Hstored Hprop eq_refl).
    reflexivity. }
  from_run Hrun.
Qed.

Lemma first_recent_root_returned_verbatim_witness :
  getRoot
    (startup Posix.host None Posix.bare
       (boot (Posix.stored (Posix.writeJson (WorkspaceData.make ["/a"; "/b"]))))).2
  = Resolved (JString "/a").
Proof.
  refine (proj2 (first_recent_root_returned_verbatim Posix.host None _ _
                   [("recentRoots", JArray [JString "/a"; JString "/b"])]
                   "/a" [JString "/b"] _ _ _)).
  - split; reflexivity.
  - exists (Posix.writeJson (WorkspaceData.make ["/a"; "/b"])).
    split; [| split]; vm_compute; [reflexivity | discriminate | reflexivity].
  - reflexivity.
Defined.

(** C2, as the spec has it, fails: the file holds
    [{"recentRoots":["/a","/b"]}], no argument is given, and [getRoot()]
    resolves to ["/a"], which is not the file URI [file:///a] of ["/a"]. *)
Lemma first_recent_root_not_canonical :
  Posix.parse (Posix.stringify (WorkspaceData.make ["/a"; "/b"]))
  = Some (JObject [("recentRoots", JArray [JString "/a"; JString "/b"])])
  ∧ getRoot
      (startup Posix.host None Posix.bare
         (boot (Posix.stored (Posix.stringify (WorkspaceData.make ["/a"; "/b"]))))).2
    = Resolved (JString "/a")
  ∧ FileUri_create Posix.host "/a" = "file:///a"
  ∧ Resolved (JString "/a") ≠ Resolved (JString (FileUri_create Posix.host "/a")).
Proof.
  split; [vm_compute; reflexivity |].
  split; [vm_compute; reflexivity |].
  split; [reflexivity | discriminate].
Qed.

(** C5: a persisted file that is not blank and that [JSON.parse] rejects
    is ignored.  The read returns [undefined] (no exception), so with no
    command-line argument [getRoot()] resolves to [undefined]; the logger
    and the prompt are called; and the file system is left exactly as it
    was unless the answer to the prompt is [Delete], in which case the file
    is removed. *)
Theorem malformed_file_is_ignored
    (h : Host) (selected : option string) (args : Arguments)
    (σ : gmap path node) (raw : string) :
  no_cli_argument args →
  σ !! getUserStoragePath h = Some (File raw) →
  trim h raw ≠ "" →
  JSON_parse h (trim h raw) = None →
  ∃ w',
    readFromUserHome h selected (boot σ) = (Ok JUndefined, w')
    ∧ startup h selected args (boot σ)
      = (Ok tt, set_root (Resolved JUndefined) w')
    ∧ (selected ≠ Some DELETE_FILE → files w' = σ)
    ∧ (selected = Some DELETE_FILE → files w' !! getUserStoragePath h = None).
Proof.
  intros Hno Hfile Hne Hbad.
  pose proof (read_malformed h selected (boot σ) raw Hfile Hne Hbad) as Hread.
  eexists. split; [exact Hread |]. split; [| split].
  - rewrite (startup_no_cli h selected args _ Hno).
    rewrite (init_no_data h selected _ _ Hread), onSelected_root. reflexivity.
  - intros Hkeep. rewrite (onSelected_files _ _ _ Hkeep). reflexivity.
  - intros ->. apply onSelected_delete.
Qed.

Lemma malformed_file_is_ignored_witness :
  ∃ w',
    readFromUserHome Posix.host (Some FIX_FILE) (boot (Posix.stored "{oops"))
    = (Ok JUndefined, w')
    ∧ startup Posix.host (Some FIX_FILE) Posix.bare (boot (Posix.stored "{oops"))
      = (Ok tt, set_root (Resolved JUndefined) w')
    ∧ (Some FIX_FILE ≠ Some DELETE_FILE → files w' = Posix.stored "{oops")
    ∧ (Some FIX_FILE = Some DELETE_FILE
       → files w' !! getUserStoragePath Posix.host = None).
Proof.
  refine (malformed_file_is_ignored Posix.host (Some FIX_FILE) Posix.bare
            (Posix.stored "{oops") "{oops" _ _ _ _).
  - split; reflexivity.
  - vm_compute. reflexivity.
  - vm_compute. discriminate.
  - vm_compute. reflexivity.
Defined.

(** ** Shape check of the stored value *)

(** Parsed JSON other than [null] that carries no [recentRoots] is no
    data. *)
Lemma shape_mismatch_is_no_data (h : Host) (selected : option string)
    (w : World) (v : JSValue) :
  stored_json h (files w) v →
  v ≠ JNull → v ≠ JUndefined →
  (∀ fields, v = JObject fields → own_property "recentRoots" fields = None) →
  readFromUserHome h selected w = (Ok JUndefined, w).
Proof.
  intros Hstored Hnull Hundef Hshape.
  rewrite (read_parsed h selected w v Hstored).
  destruct v; try congruence; try reflexivity.
  unfold WorkspaceData.is_. simpl. rewrite (Hshape fields eq_refl). reflexivity.
Qed.

(** [null] is valid JSON, and [WorkspaceData.is(null)] reads a property of
    [null]: the [TypeError] leaves [readFromUserHome] and then [init], and
    [root] is never resolved. *)
Lemma null_file_throws (h : Host) (selected : option string) (w : World) :
  stored_json h (files w) JNull →
  readFromUserHome h selected w = (Throw TypeError, w)
  ∧ init h selected None w = (Throw TypeError, w).
Proof.
  intros Hstored.
  assert (Hread : readFromUserHome h selected w = (Throw TypeError, w)).
  { rewrite (read_parsed h selected w JNull Hstored). reflexivity. }
  split; [exact Hread |]. rewrite init_no_cli, Hread. reflexivity.
Qed.

(** C3 fails on the file [null]: the text parses, it has no [recentRoots],
    and the read does not return no data: a [TypeError] escapes
    [readFromUserHome] and [init], and [getRoot()] stays pending. *)
Theorem null_file_faults_the_resolver :
  Posix.parse "null" = Some JNull
  ∧ readFromUserHome Posix.host None (boot (Posix.stored "null"))
    = (Throw TypeError, boot (Posix.stored "null"))
  ∧ startup Posix.host None Posix.bare (boot (Posix.stored "null"))
    = (Throw TypeError, boot (Posix.stored "null"))
  ∧ getRoot (startup Posix.host None Posix.bare (boot (Posix.stored "null"))).2
    = Pending.
Proof.
  assert (Hstored : stored_json Posix.host (files (boot (Posix.stored "null"))) JNull).
  { exists "null". split; [| split]; vm_compute; [reflexivity | discriminate | reflexivity]. }
  destruct (null_file_throws Posix.host None _ Hstored) as [Hread Hinit].
  split; [vm_compute; reflexivity |]. split; [exact Hread |].
  assert (Hrun : startup Posix.host None Posix.bare (boot (Posix.stored "null"))
                 = (Throw TypeError, boot (Posix.stored "null"))).
  { rewrite startup_no_cli by (split; reflexivity). exact Hinit. }
  from_run Hrun.
Qed.

(** ** [mkdirs] and the write path *)

Lemma node_at_snoc (σ : gmap path node) (done : path) (s : string) :
  node_at σ (done ++ [s])%list = σ !! (done ++ [s])%list.
Proof. destruct done; reflexivity. Qed.

Lemma ancestors_from_length (rest : list string) (done q : path) :
  q ∈ ancestors_from done rest →
  (List.length done < List.length q ≤ List.length done + List.length rest)%nat.
Proof.
  revert done. induction rest as [| s rest IH]; intros done Hin; simpl in Hin.
  - apply elem_of_nil in Hin. contradiction.
  - apply elem_of_cons in Hin as [-> | Hin].
    + rewrite length_app. simpl. lia.
    + apply IH in Hin. rewrite length_app in Hin. simpl in *. lia.
Qed.

Lemma ancestors_from_last (rest : list string) (done : path) :
  rest ≠ [] → (done ++ rest)%list ∈ ancestors_from done rest.
Proof.
  revert done. induction rest as [| s rest IH]; intros done Hne; [congruence |].
  simpl. destruct rest as [| s' rest'].
  - apply elem_of_cons. left. reflexivity.
  - apply elem_of_cons. right.
    replace (done ++ s :: s' :: rest')%list with ((done ++ [s]) ++ s' :: rest')%list
      by (rewrite <- app_assoc; reflexivity).
    apply IH. discriminate.
Qed.

Lemma not_a_file_insert_dir (σ : gmap path node) (p q : path) :
  not_a_file σ q = true → not_a_file (<[p := Dir]> σ) q = true.
Proof.
  unfold not_a_file. destruct (decide (p = q)) as [-> | Hne].
  - rewrite lookup_insert_eq. reflexivity.
  - rewrite lookup_insert_ne by exact Hne. tauto.
Qed.

Lemma clear_insert_dir (σ : gmap path node) (p : path) (l : list path) :
  forallb (not_a_file σ) l = true → forallb (not_a_file (<[p := Dir]> σ)) l = true.
Proof.
  induction l as [| q l IH]; simpl; [reflexivity |].
  intros [Hq Hl]%andb_prop. rewrite (not_a_file_insert_dir σ p q Hq). simpl. auto.
Qed.

(** [mkdirs] succeeds when no regular file is in its way; it turns every
    directory on the way into an existing one and touches nothing else. *)
Lemma mkdirs_from_clear (rest : list string) (done : path) (σ : gmap path node) :
  forallb (not_a_file σ) (ancestors_from done rest) = true →
  ∃ σ', mkdirs_from done rest σ = (Ok tt, σ')
        ∧ (∀ q, q ∈ ancestors_from done rest → σ' !! q = Some Dir)
        ∧ (∀ q, q ∉ ancestors_from done rest → σ' !! q = σ !! q).
Proof.
  revert done σ. induction rest as [| s rest IH]; intros done σ Hclear.
  - exists σ. split; [reflexivity |]. split; [| reflexivity].
    intros q Hq. apply elem_of_nil in Hq. contradiction.
  - simpl in Hclear. apply andb_prop in Hclear as [Hhere Hbelow].
    simpl. rewrite node_at_snoc.
    set (p := (done ++ [s])%list) in *.
    assert (Hfresh : p ∉ ancestors_from p rest).
    { intros Hin. apply ancestors_from_length in Hin. lia. }
    unfold not_a_file in Hhere.
    destruct (σ !! p) as [[| text] |] eqn:Hp; [| discriminate |].
    + destruct (IH p σ Hbelow) as (σ' & Hrun & Hdirs & Hframe).
      exists σ'. split; [exact Hrun |]. split.
      * intros q [-> | Hq]%elem_of_cons; [| auto].
        rewrite (Hframe p Hfresh). exact Hp.
      * intros q Hq. apply Hframe. intros Hin. apply Hq, elem_of_cons. auto.
    + destruct (IH p (<[p := Dir]> σ) (clear_insert_dir σ p _ Hbelow))
        as (σ' & Hrun & Hdirs & Hframe).
      exists σ'. split; [exact Hrun |]. split.
      * intros q [-> | Hq]%elem_of_cons; [| auto].
        rewrite (Hframe p Hfresh). apply lookup_insert_eq.
      * intros q Hq.
        rewrite Hframe by (intros Hin; apply Hq, elem_of_cons; auto).
        apply lookup_insert_ne. intros <-. apply Hq, elem_of_cons. auto.
Qed.

Lemma storage_not_ancestor (h : Host) :
  getUserStoragePath h ∉ ancestors (dirname (getUserStoragePath h)).
Proof.
  intros Hin. apply ancestors_from_length in Hin.
  rewrite storage_dirname in Hin. unfold getUserStoragePath in Hin.
  rewrite !length_app in Hin. simpl in Hin. lia.
Qed.

Lemma storage_parent_ancestor (h : Host) :
  dirname (getUserStoragePath h) ∈ ancestors (dirname (getUserStoragePath h)).
Proof.
  unfold ancestors.
  apply (ancestors_from_last (dirname (getUserStoragePath h)) []).
  rewrite storage_dirname. destruct (os_homedir h); discriminate.
Qed.

Lemma storage_not_parent (h : Host) :
  getUserStoragePath h ≠ dirname (getUserStoragePath h).
Proof.
  intros Heq. apply (f_equal List.length) in Heq.
  rewrite storage_dirname in Heq. unfold getUserStoragePath in Heq.
  rewrite !length_app in Heq. simpl in Heq. lia.
Qed.

Lemma parent_lookup (h : Host) (σ : gmap path node) :
  node_at σ (dirname (getUserStoragePath h)) = σ !! dirname (getUserStoragePath h).
Proof. rewrite storage_dirname. apply node_at_snoc. Qed.

(** The file exists already: [mkdirs] is skipped and the text replaced. *)
Lemma write_present (h : Host) (data : JSValue) (w : World) (text : string) :
  files w !! getUserStoragePath h = Some (File text) →
  files w !! dirname (getUserStoragePath h) = Some Dir →
  writeToUserHome h data w
  = (Ok tt,
     set_files (<[getUserStoragePath h := File (writeJson_text h data)]> (files w)) w).
Proof.
  intros Hfile Hdir.
  unfold writeToUserHome, bind, fs_pathExists, fs_writeJson, fs_writeFile.
  rewrite storage_lookup, Hfile. rewrite bool_decide_eq_true_2 by eauto.
  cbv beta iota. unfold ret. rewrite storage_lookup, Hfile, parent_lookup, Hdir.
  reflexivity.
Qed.

(** The file does not exist: its folder is made, then the text written. *)
Lemma write_absent (h : Host) (data : JSValue) (w : World) :
  files w !! getUserStoragePath h = None →
  clear_way (files w) (dirname (getUserStoragePath h)) = true →
  ∃ σ',
    fs_mkdirs (dirname (getUserStoragePath h)) w = (Ok tt, set_files σ' w)
    ∧ (∀ q, q ∈ ancestors (dirname (getUserStoragePath h)) → σ' !! q = Some Dir)
    ∧ (∀ q, q ∉ ancestors (dirname (getUserStoragePath h)) → σ' !! q = files w !! q)
    ∧ writeToUserHome h data w
      = (Ok tt,
         set_files (<[getUserStoragePath h := File (writeJson_text h data)]> σ') w).
Proof.
  intros Hfile Hclear.
  destruct (mkdirs_from_clear _ [] (files w) Hclear) as (σ' & Hrun & Hdirs & Hframe).
  exists σ'. split; [| split; [exact Hdirs | split; [exact Hframe |]]].
  - unfold fs_mkdirs. rewrite Hrun. reflexivity.
  - unfold writeToUserHome, bind, fs_pathExists, fs_writeJson, fs_writeFile.
    rewrite storage_lookup, Hfile.
    rewrite bool_decide_eq_false_2 by (intros [? ?]; discriminate).
    cbv beta iota. unfold fs_mkdirs. rewrite Hrun.
    cbv beta iota. simpl files.
    rewrite storage_lookup, (Hframe _ (storage_not_ancestor h)), Hfile.
    rewrite parent_lookup, (Hdirs _ (storage_parent_ancestor h)).
    reflexivity.
Qed.

Lemma write_writable (h : Host) (data : JSValue) (w : World) :
  writable h (files w) →
  ∃ σ', writeToUserHome h data w = (Ok tt, set_files σ' w)
        ∧ σ' !! getUserStoragePath h = Some (File (writeJson_text h data))
        ∧ σ' !! dirname (getUserStoragePath h) = Some Dir.
Proof.
  intros [[Hnone Hclear] | (text & Hfile & Hdir)].
  - destruct (write_absent h data w Hnone Hclear) as (σ' & _ & Hdirs & _ & Hrun).
    eexists. split; [exact Hrun |]. split.
    + apply lookup_insert_eq.
    + rewrite lookup_insert_ne by apply storage_not_parent.
      apply Hdirs, storage_parent_ancestor.
  - eexists. split; [exact (write_present h data w text Hfile Hdir) |]. split.
    + apply lookup_insert_eq.
    + rewrite lookup_insert_ne by apply storage_not_parent. exact Hdir.
Qed.

(** [setRoot] replaces the deferred first; the write runs on that world. *)
Lemma setRoot_run (h : Host) (uri : string) (w : World) :
  setRoot h uri w
  = (Ok tt,
     (writeToUserHome h (WorkspaceData.make [uri])
        (set_root (Resolved (JString uri)) w)).2).
Proof. reflexivity. Qed.

(** The write never touches the deferred. *)
Lemma writeToUserHome_root (h : Host) (data : JSValue) (w : World) :
  root (writeToUserHome h data w).2 = root w.
Proof.
  unfold writeToUserHome, bind, fs_pathExists, fs_writeJson, fs_writeFile, ret,
    fs_mkdirs.
  destruct (bool_decide _); cbv beta iota.
  - destruct (node_at (files w) (getUserStoragePath h)) as [[| ?] |];
      try reflexivity;
      destruct (node_at (files w) (dirname (getUserStoragePath h))) as [[| ?] |];
      reflexivity.
  - destruct (mkdirs_from [] (dirname (getUserStoragePath h)) (files w))
      as [[[] | e] σ']; [| reflexivity].
    cbv beta iota. simpl files.
    destruct (node_at σ' (getUserStoragePath h)) as [[| ?] |];
      try reflexivity;
      destruct (node_at σ' (dirname (getUserStoragePath h))) as [[| ?] |];
      reflexivity.
Qed.

(** [getRoot()] after [setRoot(uri)] is [uri], in every world: the answer
    is the deferred in memory, whatever becomes of the write. *)
Lemma getRoot_after_setRoot (h : Host) (uri : string) (w : World) :
  getRoot (setRoot h uri w).2 = Resolved (JString uri).
Proof.
  rewrite setRoot_run. unfold getRoot. simpl. apply writeToUserHome_root.
Qed.

Lemma setRoot_writable (h : Host) (uri : string) (w : World) :
  writable h (files w) →
  files (setRoot h uri w).2 !! getUserStoragePath h
  = Some (File (writeJson_text h (WorkspaceData.make [uri])))
  ∧ writable h (files (setRoot h uri w).2).
Proof.
  intros Hw. rewrite setRoot_run. simpl.
  destruct (write_writable h (WorkspaceData.make [uri])
              (set_root (Resolved (JString uri)) w) Hw) as (σ' & Hrun & Hfile & Hdir).
  rewrite Hrun. simpl. split; [exact Hfile |].
  right. eauto.
Qed.

(** Reading back what [setRoot] wrote, on a host whose [JSON.parse] reads
    the text [fs.writeJson] stores. *)
Lemma setRoot_then_read (h : Host) (selected : option string) (uri : string)
    (w : World) :
  writable h (files w) →
  trim h (writeJson_text h (WorkspaceData.make [uri])) ≠ "" →
  JSON_parse h (trim h (writeJson_text h (WorkspaceData.make [uri])))
  = Some (WorkspaceData.make [uri]) →
  readFromUserHome h selected (setRoot h uri w).2
  = (Ok (WorkspaceData.make [uri]), (setRoot h uri w).2).
Proof.
  intros Hw Hne Hparse.
  destruct (setRoot_writable h uri w Hw) as [Hfile _].
  rewrite (read_parsed h selected _ (WorkspaceData.make [uri])).
  - reflexivity.
  - exists (writeJson_text h (WorkspaceData.make [uri])). auto.
Qed.

(** ** [setRoot] *)



(** C8: when the folder of the storage file does not exist (so neither
    does the file) and no regular file is in the way, [setRoot(uri)]
    succeeds and so does its write: [mkdirs] runs first and leaves the
    folder and all of its ancestors as directories, keeping every entry
    that was there, and the file is then written into the folder. *)
Theorem setRoot_creates_missing_directories
    (h : Host) (w : World) (uri : string) :
  files w !! dirname (getUserStoragePath h) = None →
  files w !! getUserStoragePath h = None →
  clear_way (files w) (dirname (getUserStoragePath h)) = true →
  ∃ σ',
    fs_mkdirs (dirname (getUserStoragePath h)) w = (Ok tt, set_files σ' w)
    ∧ Forall (λ q, σ' !! q = Some Dir) (ancestors (dirname (getUserStoragePath h)))
    ∧ σ' !! dirname (getUserStoragePath h) = Some Dir
    ∧ files w ⊆ σ'
    ∧ writeToUserHome h (WorkspaceData.make [uri]) w
      = (Ok tt,
         set_files
           (<[getUserStoragePath h := File (writeJson_text h (WorkspaceData.make [uri]))]> σ')
           w)
    ∧ setRoot h uri w
      = (Ok tt,
         set_root (Resolved (JString uri))
           (set_files
              (<[getUserStoragePath h := File (writeJson_text h (WorkspaceData.make [uri]))]> σ')
              w)).
Proof.
  intros Hnodir Hnofile Hclear.
  destruct (write_absent h (WorkspaceData.make [uri]) w Hnofile Hclear)
    as (σ' & Hmk & Hdirs & Hframe & Hrun).
  exists σ'. split; [exact Hmk |]. split; [| split; [| split; [| split]]].
  - apply Forall_forall. exact Hdirs.
  - apply Hdirs, storage_parent_ancestor.
  - apply map_subseteq_spec. intros q n Hq.
    destruct (decide (q ∈ ancestors (dirname (getUserStoragePath h)))) as [Hin | Hout].
    + rewrite (Hdirs q Hin).
      unfold clear_way in Hclear. rewrite forallb_forall in Hclear.
      apply list_elem_of_In in Hin. specialize (Hclear q Hin).
      unfold not_a_file in Hclear. rewrite Hq in Hclear.
      destruct n; [reflexivity | discriminate].
    + rewrite (Hframe q Hout). exact Hq.
  - exact Hrun.
  - rewrite setRoot_run.
    destruct (write_absent h (WorkspaceData.make [uri])
                (set_root (Resolved (JString uri)) w) Hnofile Hclear)
      as (σ2 & Hmk2 & _ & _ & Hrun2).
    assert (σ2 = σ') as ->.
    { unfold fs_mkdirs in Hmk, Hmk2. simpl in Hmk2.
      destruct (mkdirs_from [] (dirname (getUserStoragePath h)) (files w)) as [r σ0].
      injection Hmk as _ <-. injection Hmk2 as _ <-. reflexivity. }
    rewrite Hrun2. reflexivity.
Qed.

Lemma setRoot_creates_missing_directories_witness :
  ∃ σ',
    fs_mkdirs (dirname (getUserStoragePath Posix.host)) (boot ∅)
    = (Ok tt, set_files σ' (boot ∅))
    ∧ Forall (λ q, σ' !! q = Some Dir)
        (ancestors (dirname (getUserStoragePath Posix.host)))
    ∧ σ' !! dirname (getUserStoragePath Posix.host) = Some Dir
    ∧ files (boot ∅) ⊆ σ'
    ∧ writeToUserHome Posix.host (WorkspaceData.make ["file:///ws"]) (boot ∅)
      = (Ok tt,
         set_files
           (<[getUserStoragePath Posix.host
              := File (writeJson_text Posix.host (WorkspaceData.make ["file:///ws"]))]> σ')
           (boot ∅))
    ∧ setRoot Posix.host "file:///ws" (boot ∅)
      = (Ok tt,
         set_root (Resolved (JString "file:///ws"))
           (set_files
              (<[getUserStoragePath Posix.host
                 := File (writeJson_text Posix.host (WorkspaceData.make ["file:///ws"]))]> σ')
              (boot ∅))).
Proof.
  refine (setRoot_creates_missing_directories Posix.host (boot ∅) "file:///ws" _ _ _).
  - reflexivity.
  - reflexivity.
  - vm_compute. reflexivity.
Defined.

(** * Further properties of the code *)

(** ** Equations of [readFromUserHome] and [init] *)

Lemma read_directory (h : Host) (selected : option string) (w : World) :
  files w !! getUserStoragePath h = Some Dir →
  readFromUserHome h selected w = (Throw (FsError EISDIR), w).
Proof.
  intros Hdir. unfold readFromUserHome, bind, fs_pathExists, fs_readFile.
  rewrite storage_lookup, Hdir. rewrite bool_decide_eq_true_2 by eauto.
  cbv beta iota. rewrite storage_lookup, Hdir. reflexivity.
Qed.

Lemma read_spec (h : Host) (selected : option string) (w : World) :
  readFromUserHome h selected w
  = match files w !! getUserStoragePath h with
    | None => (Ok JUndefined, w)
    | Some Dir => (Throw (FsError EISDIR), w)
    | Some (File raw) =>
        if negb (truthy (JString (trim h raw))) then (Ok JUndefined, w)
        else
          match JSON_parse h (trim h raw) with
          | None =>
              (Ok JUndefined,
               (onSelected (getUserStoragePath h) selected
                  (emit (MessageWarn [FIX_FILE; DELETE_FILE]) (emit LoggerWarn w))).2)
          | Some config =>
              match WorkspaceData.is_ config with
              | Ok true => (Ok config, w)
              | Ok false => (Ok JUndefined, w)
              | Throw e => (Throw e, w)
              end
          end
    end.
Proof.
  destruct (files w !! getUserStoragePath h) as [[| raw] |] eqn:Hfile.
  - apply read_directory. exact Hfile.
  - apply read_present. exact Hfile.
  - apply read_missing. exact Hfile.
Qed.

Lemma init_spec (h : Host) (selected : option string) (arg : option string)
    (w : World) :
  init h selected arg w
  = if truthy (getRootURIFromCli h arg)
    then (Ok tt,
          set_root (Deferred_resolve (root w) (getRootURIFromCli h arg)) w)
    else
      match readFromUserHome h selected w with
      | (Ok data, w') =>
          match (if truthy data then js_get data "recentRoots" else Ok data) with
          | Ok recent =>
              match (if truthy recent then js_index recent 0
                     else Ok (getRootURIFromCli h arg)) with
              | Ok r => (Ok tt, set_root (Deferred_resolve (root w') r) w')
              | Throw e => (Throw e, w')
              end
          | Throw e => (Throw e, w')
          end
      | (Throw e, w') => (Throw e, w')
      end.
Proof.
  unfold init, bind, lift, ret, modify.
  destruct (truthy (getRootURIFromCli h arg)); simpl; [reflexivity |].
  destruct (readFromUserHome h selected w) as [[data | e] w']; [| reflexivity].
  destruct (truthy data); simpl.
  - destruct (js_get data "recentRoots") as [recent | e]; [| reflexivity].
    destruct (truthy recent); simpl; [| reflexivity].
    destruct (js_index recent 0); reflexivity.
  - destruct (truthy data) eqn:Hd; simpl; [| reflexivity].
    destruct (js_index data 0); reflexivity.
Qed.

Lemma js_get_truthy (v : JSValue) (name : string) :
  truthy v = true → ∃ r, js_get v name = Ok r.
Proof. destruct v; simpl; try discriminate; eauto. Qed.

Lemma js_index_truthy (v : JSValue) (i : nat) :
  truthy v = true → ∃ r, js_index v i = Ok r.
Proof. destruct v; simpl; try discriminate; eauto. Qed.

Lemma onSelected_trace (file : path) (selected : option string) (w : World) :
  trace (onSelected file selected w).2
  = (trace w
     ++ (if decide (selected = Some FIX_FILE)
         then [MessageInfo "Once fixed, you should reload the application."]
         else []))%list.
Proof.
  unfold onSelected.
  destruct (decide (selected = Some FIX_FILE)); [reflexivity |].
  destruct (decide (selected = Some DELETE_FILE)); simpl; rewrite app_nil_r; reflexivity.
Qed.

(** The world [readFromUserHome] leaves: the one it found, unless the file
    is malformed. *)
Lemma read_world (h : Host) (selected : option string) (w : World) :
  (readFromUserHome h selected w).2 = w
  ∨ (malformed h (files w)
     ∧ (readFromUserHome h selected w)
       = (Ok JUndefined,
          (onSelected (getUserStoragePath h) selected
             (emit (MessageWarn [FIX_FILE; DELETE_FILE]) (emit LoggerWarn w))).2)).
Proof.
  rewrite read_spec.
  destruct (files w !! getUserStoragePath h) as [[| raw] |] eqn:Hfile; auto.
  destruct (truthy (JString (trim h raw))) eqn:Htrim; simpl; auto.
  destruct (JSON_parse h (trim h raw)) as [config |] eqn:Hparse.
  - destruct (WorkspaceData.is_ config) as [[|] | e]; auto.
  - right. split; [| reflexivity]. exists raw. repeat split; auto.
    intros Hblank. rewrite Hblank in Htrim. discriminate.
Qed.

Lemma read_root (h : Host) (selected : option string) (w : World) :
  root (readFromUserHome h selected w).2 = root w.
Proof.
  destruct (read_world h selected w) as [-> | [_ ->]]; [reflexivity |].
  cbn [snd]. rewrite onSelected_root. reflexivity.
Qed.

(** [init] ends in the world its read left, with [root] settled when it
    returns and untouched when it throws. *)
Lemma init_shape (h : Host) (selected : option string) (arg : option string)
    (w : World) :
  let w' := if truthy (getRootURIFromCli h arg) then w
            else (readFromUserHome h selected w).2 in
  (∃ r, init h selected arg w
        = (Ok tt, set_root (Deferred_resolve (root w') r) w'))
  ∨ (∃ e, init h selected arg w = (Throw e, w')).
Proof.
  rewrite init_spec.
  destruct (truthy (getRootURIFromCli h arg)); simpl; [eauto |].
  destruct (readFromUserHome h selected w) as [[data | e] w1]; simpl; [| eauto].
  destruct (if truthy data then js_get data "recentRoots" else Ok data)
    as [recent | e]; [| eauto].
  destruct (if truthy recent then js_index recent 0
            else Ok (getRootURIFromCli h arg)); eauto.
Qed.

(** ** What [readFromUserHome] returns and what it leaves behind *)

(** X1: a value [readFromUserHome] returns, other than [undefined], is the
    parsed content of the persisted file, it has a [recentRoots] property
    that is not [undefined], and the world is the one the read started in. *)
Theorem readFromUserHome_returns_guarded_value
    (h : Host) (selected : option string) (w w' : World) (v : JSValue) :
  readFromUserHome h selected w = (Ok v, w') →
  v ≠ JUndefined →
  w' = w
  ∧ stored_json h (files w) v
  ∧ ∃ r, js_get v "recentRoots" = Ok r ∧ r ≠ JUndefined.
Proof.
  intros Hread Hdef. rewrite read_spec in Hread.
  destruct (files w !! getUserStoragePath h) as [[| raw] |] eqn:Hfile;
    try congruence.
  destruct (truthy (JString (trim h raw))) eqn:Htrim; simpl in Hread;
    [| congruence].
  destruct (JSON_parse h (trim h raw)) as [config |] eqn:Hparse; [| congruence].
  unfold WorkspaceData.is_ in Hread.
  destruct (js_get config "recentRoots") as [r | e] eqn:Hget; [| congruence].
  destruct (is_undefined r) eqn:Hr; simpl in Hread; [congruence |].
  injection Hread as <- <-. split; [reflexivity |]. split.
  - exists raw. repeat split; auto.
    intros Hblank. rewrite Hblank in Htrim. discriminate.
  - exists r. split; [exact Hget |]. intros ->. discriminate.
Qed.

Lemma readFromUserHome_returns_guarded_value_witness :
  let σ := Posix.stored (Posix.writeJson (WorkspaceData.make ["file:///ws"])) in
  boot σ = boot σ
  ∧ stored_json Posix.host (files (boot σ)) (WorkspaceData.make ["file:///ws"])
  ∧ ∃ r, js_get (WorkspaceData.make ["file:///ws"]) "recentRoots" = Ok r
         ∧ r ≠ JUndefined.
Proof.
  intros σ.
  refine (readFromUserHome_returns_guarded_value Posix.host None (boot σ) (boot σ)
            (WorkspaceData.make ["file:///ws"]) _ _).
  - vm_compute. reflexivity.
  - discriminate.
Defined.

(** X2: unless the persisted file is malformed, [readFromUserHome] leaves
    the world as it found it: no file is touched, nothing is logged or
    shown, [root] is not settled, also when the read throws. *)
Theorem readFromUserHome_changes_nothing_unless_malformed
    (h : Host) (selected : option string) (w : World) :
  ¬ malformed h (files w) →
  (readFromUserHome h selected w).2 = w.
Proof.
  intros Hfine. destruct (read_world h selected w) as [Hsame | [Hbad _]];
    [exact Hsame | contradiction].
Qed.

Lemma readFromUserHome_changes_nothing_unless_malformed_witness :
  (readFromUserHome Posix.host (Some DELETE_FILE) (boot (Posix.stored "null"))).2
  = boot (Posix.stored "null").
Proof.
  refine (readFromUserHome_changes_nothing_unless_malformed Posix.host _ _ _).
  intros (raw & Hfile & _ & Hparse).
  vm_compute in Hfile. injection Hfile as <-. vm_compute in Hparse. discriminate.
Defined.

(** X3: on a malformed file the read returns [undefined], the logger is
    warned, then the prompt with the actions [Fix] and [Delete] is shown,
    and the answer [Fix] shows the reload notice and no other message;
    [root] is not settled by it. *)
Theorem parse_error_is_reported
    (h : Host) (selected : option string) (w : World) :
  malformed h (files w) →
  (readFromUserHome h selected w).1 = Ok JUndefined
  ∧ trace (readFromUserHome h selected w).2
    = (trace w ++ parse_error_messages selected)%list
  ∧ root (readFromUserHome h selected w).2 = root w.
Proof.
  intros (raw & Hfile & Hne & Hparse).
  rewrite (read_malformed h selected w raw Hfile Hne Hparse). cbn [fst snd].
  split; [reflexivity |]. split.
  - rewrite onSelected_trace. unfold parse_error_messages. simpl.
    rewrite <- !app_assoc. reflexivity.
  - rewrite onSelected_root. reflexivity.
Qed.

Lemma parse_error_is_reported_witness :
  (readFromUserHome Posix.host (Some FIX_FILE) (boot (Posix.stored "{oops"))).1
  = Ok JUndefined
  ∧ trace (readFromUserHome Posix.host (Some FIX_FILE) (boot (Posix.stored "{oops"))).2
    = (trace (boot (Posix.stored "{oops")) ++ parse_error_messages (Some FIX_FILE))%list
  ∧ root (readFromUserHome Posix.host (Some FIX_FILE) (boot (Posix.stored "{oops"))).2
    = root (boot (Posix.stored "{oops")).
Proof.
  refine (parse_error_is_reported Posix.host (Some FIX_FILE)
            (boot (Posix.stored "{oops")) _).
  exists "{oops". split; [| split]; vm_compute; [reflexivity | discriminate | reflexivity].
Defined.

(** X4: answering [Delete] on a malformed file removes the entry at the
    storage path (with anything below it) and no other entry. *)
Theorem delete_removes_the_storage_entry_only
    (h : Host) (w : World) (q : path) :
  malformed h (files w) →
  files (readFromUserHome h (Some DELETE_FILE) w).2 !! q
  = if decide (getUserStoragePath h `prefix_of` q) then None else files w !! q.
Proof.
  intros (raw & Hfile & Hne & Hparse).
  rewrite (read_malformed h _ w raw Hfile Hne Hparse). cbn [snd].
  unfold onSelected. simpl.
  destruct (decide (getUserStoragePath h `prefix_of` q)) as [Hunder | Hout].
  - apply map_lookup_filter_None. right. intros x _ Hkeep. exact (Hkeep Hunder).
  - destruct (files w !! q) as [x |] eqn:Hq.
    + apply map_lookup_filter_Some. split; [exact Hq | exact Hout].
    + apply map_lookup_filter_None. left. exact Hq.
Qed.

Lemma delete_removes_the_storage_entry_only_witness :
  files (readFromUserHome Posix.host (Some DELETE_FILE)
           (boot (Posix.stored "{oops"))).2 !! ["home"; "user"; ".theia"]
  = if decide (getUserStoragePath Posix.host `prefix_of` ["home"; "user"; ".theia"])
    then None else files (boot (Posix.stored "{oops")) !! ["home"; "user"; ".theia"].
Proof.
  refine (delete_removes_the_storage_entry_only Posix.host
            (boot (Posix.stored "{oops")) _ _).
  exists "{oops". split; [| split]; vm_compute; [reflexivity | discriminate | reflexivity].
Defined.

(** X5: start-up never writes: whatever the command line and the files,
    the file system after [init] is the one before it, unless the file is
    malformed and the prompt is answered with [Delete]. *)
Theorem startup_leaves_files_alone
    (h : Host) (selected : option string) (args : Arguments) (w : World) :
  selected ≠ Some DELETE_FILE ∨ ¬ malformed h (files w) →
  files (startup h selected args w).2 = files w.
Proof.
  intros Hkeep. unfold startup.
  destruct (setArguments h args) as [arg | e]; [| reflexivity].
  assert (Hread : files (readFromUserHome h selected w).2 = files w).
  { destruct (read_world h selected w) as [-> | [Hbad ->]]; [reflexivity |].
    destruct Hkeep as [Hsel | Hfine]; [| contradiction].
    cbn [snd]. rewrite (onSelected_files _ _ _ Hsel). reflexivity. }
  pose proof (init_shape h selected arg w) as Hshape. cbv zeta in Hshape.
  destruct (truthy (getRootURIFromCli h arg));
    destruct Hshape as [[r ->] | [e ->]]; simpl; auto.
Qed.

Lemma startup_leaves_files_alone_witness :
  files (startup Posix.host (Some FIX_FILE) Posix.bare (boot (Posix.stored "{oops"))).2
  = files (boot (Posix.stored "{oops")).
Proof.
  refine (startup_leaves_files_alone Posix.host (Some FIX_FILE) Posix.bare _ _).
  left. discriminate.
Defined.

(** ** [init], [setRoot] and the deferred *)

Lemma init_root (h : Host) (selected : option string) (arg : option string)
    (w : World) :
  (∃ r, (init h selected arg w).1 = Ok tt
        ∧ root (init h selected arg w).2 = Deferred_resolve (root w) r)
  ∨ (∃ e, (init h selected arg w).1 = Throw e
          ∧ root (init h selected arg w).2 = root w).
Proof.
  pose proof (init_shape h selected arg w) as Hshape. cbv zeta in Hshape.
  assert (Hroot : root (if truthy (getRootURIFromCli h arg) then w
                        else (readFromUserHome h selected w).2) = root w).
  { destruct (truthy (getRootURIFromCli h arg)); [reflexivity | apply read_root]. }
  destruct Hshape as [[r ->] | [e ->]]; [left; exists r | right; exists e];
    cbn [fst snd]; (split; [reflexivity |]); simpl; rewrite Hroot; reflexivity.
Qed.

(** X6: [setRoot] wins over [init] in either order.  A root set before
    [init] settles the deferred is kept ([init] resolves a promise that is
    settled already), and a root set after it replaces what [init]
    resolved. *)
Theorem setRoot_wins_over_init
    (h : Host) (selected : option string) (arg : option string)
    (uri : string) (w : World) :
  getRoot (init h selected arg (setRoot h uri w).2).2 = Resolved (JString uri)
  ∧ getRoot (setRoot h uri (init h selected arg w).2).2 = Resolved (JString uri).
Proof.
  split; [| apply getRoot_after_setRoot].
  pose proof (getRoot_after_setRoot h uri w) as Hset. unfold getRoot in *.
  destruct (init_root h selected arg (setRoot h uri w).2)
    as [(r & _ & ->) | (e & _ & ->)]; rewrite Hset; reflexivity.
Qed.

(** X7: in a process that has just started, [getRoot()] settles exactly
    when start-up runs to its end; when [setArguments] or [init] throws,
    the promise stays pending. *)
Theorem getRoot_settles_iff_startup_completes
    (h : Host) (selected : option string) (args : Arguments)
    (σ : gmap path node) :
  (startup h selected args (boot σ)).1 = Ok tt
  ↔ ∃ v, getRoot (startup h selected args (boot σ)).2 = Resolved v.
Proof.
  unfold startup, getRoot.
  destruct (setArguments h args) as [arg | e].
  - destruct (init_root h selected arg (boot σ))
      as [(r & -> & ->) | (e & -> & ->)]; simpl.
    + split; [eauto | reflexivity].
    + split; [discriminate | intros [v Hv]; discriminate].
  - simpl. split; [discriminate | intros [v Hv]; discriminate].
Qed.

(** X8: [init] throws in exactly two situations, both with no usable root
    from the command line: the storage path is a directory, or the file
    parses to [null].  On every other state of the file it returns. *)
Theorem init_throws_iff_unreadable
    (h : Host) (selected : option string) (arg : option string) (w : World) :
  (init h selected arg w).1 = Ok tt
  ↔ truthy (getRootURIFromCli h arg) = true ∨ ¬ unreadable h (files w).
Proof.
  rewrite init_spec.
  destruct (truthy (getRootURIFromCli h arg)) eqn:Huri;
    [split; [auto | reflexivity] |].
  rewrite read_spec.
  destruct (files w !! getUserStoragePath h) as [[| raw] |] eqn:Hfile.
  - split; [discriminate |].
    intros [? | Hn]; [discriminate |]. exfalso. apply Hn. left. exact Hfile.
  - assert (Hview : ∀ v, stored_json h (files w) v →
                         trim h raw ≠ "" ∧ JSON_parse h (trim h raw) = Some v).
    { intros v (raw' & Hf & Hne & Hp). rewrite Hfile in Hf.
      injection Hf as <-. auto. }
    destruct (truthy (JString (trim h raw))) eqn:Htrim; simpl.
    + destruct (JSON_parse h (trim h raw)) as [config |] eqn:Hparse.
      * destruct (nullish config) eqn:Hnull.
        -- assert (Hthrow : WorkspaceData.is_ config = Throw TypeError)
             by (destruct config; try discriminate; reflexivity).
           rewrite Hthrow. split; [discriminate |].
           intros [? | Hn]; [discriminate |]. exfalso. apply Hn. right.
           exists config. split; [| exact Hnull].
           exists raw. repeat split; auto.
           intros Hblank. rewrite Hblank in Htrim. discriminate.
        -- assert (Hok : ¬ unreadable h (files w)).
           { intros [Hd | (v & Hs & Hv)]; [congruence |].
             apply Hview in Hs as [_ Hs]. congruence. }
           split; [auto | intros _].
           unfold WorkspaceData.is_.
           destruct (js_get config "recentRoots") as [recent | e] eqn:Hget;
             [| destruct config; discriminate].
           destruct (is_undefined recent) eqn:Hrec; simpl; [reflexivity |].
           assert (Htruthy : truthy config = true).
           { destruct config; simpl in Hget; try discriminate;
               try (injection Hget as <-; discriminate). reflexivity. }
           rewrite Htruthy, Hget.
           destruct (truthy recent) eqn:Hrt; [| reflexivity].
           destruct (js_index_truthy recent 0 Hrt) as [r ->]. reflexivity.
      * simpl. split; [intros _; right | reflexivity].
        intros [Hd | (v & Hs & _)]; [congruence |].
        apply Hview in Hs as [_ Hs]. congruence.
    + split; [intros _; right | reflexivity].
      intros [Hd | (v & Hs & _)]; [congruence |].
      apply Hview in Hs as [Hne _]. apply falsy_string in Htrim. contradiction.
  - split; [intros _; right | reflexivity].
    intros [Hd | (v & (raw & Hf & _) & _)]; congruence.
Qed.

(** ** More on [setArguments] *)

Lemma resolveWsPath_some (h : Host) (v : JSValue) :
  resolveWsPath h v ≠ Ok None.
Proof.
  destruct v; simpl; try discriminate.
  destruct (path_isAbsolute h s); discriminate.
Qed.

Lemma setArguments_supplied (h : Host) (args : Arguments) (v : JSValue) :
  supplied args v → truthy v = true → setArguments h args = resolveWsPath h v.
Proof.
  intros [[Hpos _] | [Hfalsy <-]] Hv.
  - apply setArguments_positional; assumption.
  - rewrite (setArguments_fallback h args Hfalsy), Hv. reflexivity.
Qed.

(** X9: a truthy positional argument makes [--root-dir] irrelevant:
    whatever the option holds, the captured value is the same. *)
Theorem positional_argument_wins_over_root_dir
    (h : Host) (args : Arguments) (v d : JSValue) :
  positional args !! 2%nat = Some v →
  truthy v = true →
  setArguments h {| positional := positional args; root_dir := d |}
  = setArguments h args.
Proof.
  intros Hpos Hv.
  rewrite (setArguments_positional h args v Hpos Hv).
  apply setArguments_positional; assumption.
Qed.

Lemma positional_argument_wins_over_root_dir_witness :
  setArguments Posix.host
    {| positional := [JString "node"; JString "main.js"; JString "/ws"];
       root_dir := JString "/other" |}
  = setArguments Posix.host
      {| positional := [JString "node"; JString "main.js"; JString "/ws"];
         root_dir := JUndefined |}.
Proof.
  refine (positional_argument_wins_over_root_dir Posix.host
            {| positional := [JString "node"; JString "main.js"; JString "/ws"];
               root_dir := JUndefined |}
            (JString "/ws") (JString "/other") _ _); reflexivity.
Defined.

(** X10: a truthy value that is not a string, where the workspace path is
    expected (a number as third positional, [true] for a bare
    [--root-dir]), makes [path.isAbsolute] throw: [setArguments] fails with
    a [TypeError], [workspaceRoot] is never resolved, and start-up changes
    nothing, so [getRoot()] is not settled. *)
Theorem non_string_argument_throws
    (h : Host) (selected : option string) (args : Arguments) (v : JSValue)
    (w : World) :
  supplied args v →
  truthy v = true →
  is_string v = false →
  setArguments h args = Throw TypeError
  ∧ startup h selected args w = (Throw TypeError, w).
Proof.
  intros Hsup Hv Hstr.
  assert (Hthrow : setArguments h args = Throw TypeError).
  { rewrite (setArguments_supplied h args v Hsup Hv).
    destruct v; try discriminate; reflexivity. }
  split; [exact Hthrow |]. unfold startup. rewrite Hthrow. reflexivity.
Qed.

Lemma non_string_argument_throws_witness :
  setArguments Posix.host
    {| positional := [JString "node"; JString "main.js"]; root_dir := JBool true |}
  = Throw TypeError
  ∧ startup Posix.host None
      {| positional := [JString "node"; JString "main.js"]; root_dir := JBool true |}
      (boot Posix.fresh)
    = (Throw TypeError, boot Posix.fresh).
Proof.
  refine (non_string_argument_throws Posix.host None _ (JBool true) _ _ _ _).
  - right. split; reflexivity.
  - reflexivity.
  - reflexivity.
Defined.

(** X11: whatever is captured from the command line is an absolute path,
    provided [path.join] on the working directory gives one. *)
Theorem captured_path_is_absolute
    (h : Host) (args : Arguments) (p : string) :
  (∀ r, path_isAbsolute h (path_join h (process_cwd h) r) = true) →
  setArguments h args = Ok (Some p) →
  path_isAbsolute h p = true.
Proof.
  intros Hjoin Hcap.
  assert (Hres : ∃ v, resolveWsPath h v = Ok (Some p)).
  { unfold setArguments in Hcap.
    destruct (truthy (default JUndefined (positional args !! 2%nat)));
      simpl in Hcap; [eauto |].
    destruct (truthy (root_dir args)); simpl in Hcap; [eauto | discriminate]. }
  destruct Hres as [v Hres]. destruct v; simpl in Hres; try discriminate.
  destruct (path_isAbsolute h s) eqn:Habs; simpl in Hres;
    injection Hres as <-; [exact Habs | apply Hjoin].
Qed.

Lemma captured_path_is_absolute_witness :
  path_isAbsolute Posix.host "/work/proj" = true.
Proof.
  refine (captured_path_is_absolute Posix.host
            {| positional := [JString "node"; JString "main.js"; JString "proj"];
               root_dir := JUndefined |} "/work/proj" _ _).
  - intros r. reflexivity.
  - reflexivity.
Defined.

(** X12: the captured value is unset exactly when neither form is truthy:
    [args._[2]] is missing or falsy and so is [args['root-dir']]. *)
Theorem unset_iff_nothing_supplied (h : Host) (args : Arguments) :
  setArguments h args = Ok None
  ↔ truthy (default JUndefined (positional args !! 2%nat)) = false
    ∧ truthy (root_dir args) = false.
Proof.
  unfold setArguments.
  destruct (truthy (default JUndefined (positional args !! 2%nat))); simpl.
  - split; [intros H; destruct (resolveWsPath_some h _ H) | intros [? _]; discriminate].
  - destruct (truthy (root_dir args)); simpl.
    + split; [intros H; destruct (resolveWsPath_some h _ H) | intros [_ ?]; discriminate].
    + split; auto.
Qed.

(** ** More on the write path *)

Lemma ancestors_from_app (a b : list string) (done : path) :
  ancestors_from done (a ++ b)
  = (ancestors_from done a ++ ancestors_from (done ++ a) b)%list.
Proof.
  revert done. induction a as [| s a IH]; intros done; simpl.
  - rewrite app_nil_r. reflexivity.
  - rewrite IH, <- app_assoc. reflexivity.
Qed.

(** Directories that exist already are walked through. *)
Lemma mkdirs_from_dirs (rest : list string) (done : path) (σ : gmap path node) :
  Forall (λ q, σ !! q = Some Dir) (ancestors_from done rest) →
  mkdirs_from done rest σ = (Ok tt, σ).
Proof.
  revert done. induction rest as [| s rest IH]; intros done Hall; simpl;
    [reflexivity |].
  simpl in Hall. apply Forall_cons in Hall as [Hhere Hbelow].
  rewrite node_at_snoc, Hhere. apply IH. exact Hbelow.
Qed.

(** A regular file where the last directory should be, under directories
    that exist: [mkdirs] fails with [EEXIST] and makes nothing. *)
Lemma mkdirs_from_taken (above : list string) (s : string) (done : path)
    (σ : gmap path node) (text : string) :
  Forall (λ q, σ !! q = Some Dir) (ancestors_from done above) →
  σ !! (done ++ above ++ [s])%list = Some (File text) →
  mkdirs_from done (above ++ [s]) σ = (Throw (FsError EEXIST), σ).
Proof.
  revert done. induction above as [| x above IH]; intros done Hdirs Hfile; simpl.
  - simpl in Hfile. rewrite node_at_snoc, Hfile. reflexivity.
  - simpl in Hdirs. apply Forall_cons in Hdirs as [Hhere Hbelow].
    rewrite node_at_snoc, Hhere. apply IH; [exact Hbelow |].
    rewrite <- app_assoc. exact Hfile.
Qed.

(** X13: when the storage path is a directory the write fails with
    [EISDIR] and changes nothing; [setRoot] does not await the write, so
    it returns normally all the same, with [root] replaced and the files
    and messages as they were. *)
Theorem setRoot_hides_write_failure (h : Host) (uri : string) (w : World) :
  files w !! getUserStoragePath h = Some Dir →
  writeToUserHome h (WorkspaceData.make [uri]) w = (Throw (FsError EISDIR), w)
  ∧ setRoot h uri w = (Ok tt, set_root (Resolved (JString uri)) w).
Proof.
  intros Hdir.
  assert (Hwrite : ∀ w0, files w0 = files w →
            writeToUserHome h (WorkspaceData.make [uri]) w0
            = (Throw (FsError EISDIR), w0)).
  { intros w0 Hsame.
    unfold writeToUserHome, bind, fs_pathExists, fs_writeJson, fs_writeFile.
    rewrite Hsame, storage_lookup, Hdir. rewrite bool_decide_eq_true_2 by eauto.
    cbv beta iota. unfold ret. rewrite Hsame, storage_lookup, Hdir. reflexivity. }
  split; [apply Hwrite; reflexivity |].
  rewrite setRoot_run, Hwrite; reflexivity.
Qed.

Lemma setRoot_hides_write_failure_witness :
  let w := boot (<[getUserStoragePath Posix.host := Dir]> (Posix.stored "")) in
  writeToUserHome Posix.host (WorkspaceData.make ["file:///ws"]) w
  = (Throw (FsError EISDIR), w)
  ∧ setRoot Posix.host "file:///ws" w
    = (Ok tt, set_root (Resolved (JString "file:///ws")) w).
Proof.
  intros w.
  refine (setRoot_hides_write_failure Posix.host "file:///ws" w _).
  vm_compute. reflexivity.
Defined.

(** X14: when [.theia] under an existing home directory is a regular
    file, [mkdirs] fails with [EEXIST], nothing is written or created, and
    [setRoot] still returns normally with [root] replaced. *)
Theorem setRoot_blocked_by_a_file (h : Host) (uri text : string) (w : World) :
  files w !! getUserStoragePath h = None →
  files w !! dirname (getUserStoragePath h) = Some (File text) →
  Forall (λ q, files w !! q = Some Dir) (ancestors (os_homedir h)) →
  writeToUserHome h (WorkspaceData.make [uri]) w = (Throw (FsError EEXIST), w)
  ∧ setRoot h uri w = (Ok tt, set_root (Resolved (JString uri)) w).
Proof.
  intros Hnone Hfile Hhome.
  assert (Hwrite : ∀ w0, files w0 = files w →
            writeToUserHome h (WorkspaceData.make [uri]) w0
            = (Throw (FsError EEXIST), w0)).
  { intros w0 Hsame.
    unfold writeToUserHome, bind, fs_pathExists, fs_mkdirs.
    rewrite Hsame, storage_lookup, Hnone.
    rewrite bool_decide_eq_false_2 by (intros [? ?]; discriminate).
    cbv beta iota. rewrite Hsame, storage_dirname.
    rewrite (mkdirs_from_taken (os_homedir h) ".theia" [] (files w) text Hhome)
      by (simpl; rewrite <- storage_dirname; exact Hfile).
    destruct w0 as [σ0 d0 t0]. simpl in Hsame. subst σ0. reflexivity. }
  split; [apply Hwrite; reflexivity |].
  rewrite setRoot_run, Hwrite; reflexivity.
Qed.

Lemma setRoot_blocked_by_a_file_witness :
  let w := boot (<[["home"; "user"; ".theia"] := File "notes"]> Posix.fresh) in
  writeToUserHome Posix.host (WorkspaceData.make ["file:///ws"]) w
  = (Throw (FsError EEXIST), w)
  ∧ setRoot Posix.host "file:///ws" w
    = (Ok tt, set_root (Resolved (JString "file:///ws")) w).
Proof.
  intros w.
  refine (setRoot_blocked_by_a_file Posix.host "file:///ws" "notes" w _ _ _).
  - vm_compute. reflexivity.
  - vm_compute. reflexivity.
  - repeat constructor.
Defined.

(** The files after a write on a writable store: the text at the storage
    path, over a map that differs from the old one only in directories
    made on the way. *)
Lemma write_writable_frame (h : Host) (data : JSValue) (w : World) :
  writable h (files w) →
  ∃ σ',
    writeToUserHome h data w
    = (Ok tt, set_files (<[getUserStoragePath h := File (writeJson_text h data)]> σ') w)
    ∧ σ' !! dirname (getUserStoragePath h) = Some Dir
    ∧ ∀ q, σ' !! q = files w !! q
           ∨ (files w !! q = None ∧ σ' !! q = Some Dir
              ∧ q ∈ ancestors (dirname (getUserStoragePath h))).
Proof.
  intros [[Hnone Hclear] | (text & Hfile & Hdir)].
  - destruct (write_absent h data w Hnone Hclear) as (σ' & _ & Hdirs & Hframe & Hrun).
    exists σ'. split; [exact Hrun |].
    split; [apply Hdirs, storage_parent_ancestor |].
    intros q.
    destruct (decide (q ∈ ancestors (dirname (getUserStoragePath h)))) as [Hin | Hout];
      [| left; apply Hframe, Hout].
    unfold clear_way in Hclear. rewrite forallb_forall in Hclear.
    pose proof (Hclear q (proj1 (list_elem_of_In _ _) Hin)) as Hq.
    unfold not_a_file in Hq.
    destruct (files w !! q) as [[| t] |] eqn:Hold; [| discriminate |].
    + left. apply Hdirs, Hin.
    + right. auto.
  - exists (files w). split; [exact (write_present h data w text Hfile Hdir) |].
    split; [exact Hdir | auto].
Qed.

(** X15: a write on a writable store touches nothing but the storage file
    and the directories it has to make: every other path holds what it
    held, or was missing and is now a directory on the way to the file. *)
Theorem setRoot_keeps_other_entries
    (h : Host) (uri : string) (w : World) (q : path) :
  writable h (files w) →
  q ≠ getUserStoragePath h →
  files (setRoot h uri w).2 !! q = files w !! q
  ∨ (files w !! q = None
     ∧ files (setRoot h uri w).2 !! q = Some Dir
     ∧ q ∈ ancestors (dirname (getUserStoragePath h))).
Proof.
  intros Hw Hq. rewrite setRoot_run. cbn [snd].
  destruct (write_writable_frame h (WorkspaceData.make [uri])
              (set_root (Resolved (JString uri)) w) Hw) as (σ' & -> & _ & Hframe).
  cbn [snd]. simpl files in *.
  rewrite lookup_insert_ne by (intros Heq; apply Hq; symmetry; exact Heq).
  apply Hframe.
Qed.

Lemma setRoot_keeps_other_entries_witness :
  let w := boot (<[["home"; "user"; "notes.txt"] := File "keep"]> Posix.fresh) in
  files (setRoot Posix.host "file:///ws" w).2 !! ["home"; "user"; "notes.txt"]
  = files w !! ["home"; "user"; "notes.txt"]
  ∨ (files w !! ["home"; "user"; "notes.txt"] = None
     ∧ files (setRoot Posix.host "file:///ws" w).2 !! ["home"; "user"; "notes.txt"]
       = Some Dir
     ∧ ["home"; "user"; "notes.txt"]
       ∈ ancestors (dirname (getUserStoragePath Posix.host))).
Proof.
  intros w.
  refine (setRoot_keeps_other_entries Posix.host "file:///ws" w _ _ _).
  - left. split; vm_compute; reflexivity.
  - discriminate.
Defined.

(** X16: [setRoot] is idempotent on a writable store: calling it again
    with the same uri leaves the world exactly as the first call left it. *)
Theorem setRoot_idempotent (h : Host) (uri : string) (w : World) :
  writable h (files w) →
  (setRoot h uri (setRoot h uri w).2).2 = (setRoot h uri w).2.
Proof.
  intros Hw.
  destruct (write_writable h (WorkspaceData.make [uri])
              (set_root (Resolved (JString uri)) w) Hw) as (σ1 & Hrun & Hf & Hd).
  rewrite (setRoot_run h uri w), Hrun. cbn [snd].
  rewrite setRoot_run.
  rewrite (write_present h _ _ (writeJson_text h (WorkspaceData.make [uri])))
    by assumption.
  cbn [snd]. simpl. rewrite (insert_id _ _ _ Hf). reflexivity.
Qed.

Lemma setRoot_idempotent_witness :
  (setRoot Posix.host "file:///ws" (setRoot Posix.host "file:///ws" (boot ∅)).2).2
  = (setRoot Posix.host "file:///ws" (boot ∅)).2.
Proof.
  refine (setRoot_idempotent Posix.host "file:///ws" (boot ∅) _).
  left. split; vm_compute; reflexivity.
Defined.

(** X17: a root set with [setRoot] survives a restart: on a host whose
    [JSON.parse] reads back the text [fs.writeJson] stores, a new process
    started with no workspace argument on the files [setRoot(uri)] left
    resolves [getRoot()] to [uri]. *)
Theorem setRoot_survives_restart
    (h : Host) (selected : option string) (args : Arguments)
    (uri : string) (w : World) :
  writable h (files w) →
  no_cli_argument args →
  trim h (writeJson_text h (WorkspaceData.make [uri])) ≠ "" →
  JSON_parse h (trim h (writeJson_text h (WorkspaceData.make [uri])))
  = Some (WorkspaceData.make [uri]) →
  getRoot (startup h selected args (boot (files (setRoot h uri w).2))).2
  = Resolved (JString uri).
Proof.
  intros Hw Hno Hne Hparse.
  destruct (setRoot_writable h uri w Hw) as [Hfile _].
  rewrite (startup_no_cli h selected args _ Hno).
  rewrite (init_stored_object h selected _
             [("recentRoots", JArray [JString uri])] (JArray [JString uri])).
  - reflexivity.
  - exists (writeJson_text h (WorkspaceData.make [uri])). auto.
  - reflexivity.
  - reflexivity.
Qed.

Lemma setRoot_survives_restart_witness :
  getRoot
    (startup Posix.host None Posix.bare
       (boot (files (setRoot Posix.host "file:///ws"
                       (boot (Posix.stored "{oops"))).2))).2
  = Resolved (JString "file:///ws").
Proof.
  refine (setRoot_survives_restart Posix.host None Posix.bare "file:///ws"
            (boot (Posix.stored "{oops")) _ _ _ _).
  - right. eexists. split; vm_compute; reflexivity.
  - split; reflexivity.
  - vm_compute. discriminate.
  - vm_compute. reflexivity.
Defined.





(** ** [recentRoots] is used as it comes *)

(** X19: the first element of a stored [recentRoots] array is resolved as
    the root whatever it is: a number, [null] or an object is handed to
    [getRoot()] just like a string. *)
Theorem first_element_is_not_validated
    (h : Host) (selected : option string) (args : Arguments)
    (σ : gmap path node) (fields : list (string * JSValue))
    (v : JSValue) (later : list JSValue) :
  no_cli_argument args →
  stored_json h σ (JObject fields) →
  own_property "recentRoots" fields = Some (JArray (v :: later)) →
  getRoot (startup h selected args (boot σ)).2 = Resolved v.
Proof.
  intros Hno Hstored Hprop.
  rewrite (startup_no_cli h selected args _ Hno).
  rewrite (init_stored_object h selected (boot σ) fields _ Hstored Hprop eq_refl).
  reflexivity.
Qed.

Lemma first_element_is_not_validated_witness :
  getRoot
    (startup Posix.host None Posix.bare
       (boot (Posix.stored
                (Posix.stringify
                   (JObject [("recentRoots", JArray [JNumber 42; JString "/b"])]))))).2
  = Resolved (JNumber 42).
Proof.
  refine (first_element_is_not_validated Posix.host None Posix.bare _
            [("recentRoots", JArray [JNumber 42; JString "/b"])]
            (JNumber 42) [JString "/b"] _ _ _).
  - split; reflexivity.
  - eexists. split; [| split]; vm_compute; [reflexivity | discriminate | reflexivity].
  - reflexivity.
Defined.

(** X20: a stored [recentRoots] that is a non-empty string instead of an
    array is indexed like one: the root resolves to its first character. *)
Theorem string_recentRoots_yields_first_character
    (h : Host) (selected : option string) (args : Arguments)
    (σ : gmap path node) (fields : list (string * JSValue))
    (c : ascii) (rest : string) :
  no_cli_argument args →
  stored_json h σ (JObject fields) →
  own_property "recentRoots" fields = Some (JString (String c rest)) →
  getRoot (startup h selected args (boot σ)).2
  = Resolved (JString (String c EmptyString)).
Proof.
  intros Hno Hstored Hprop.
  rewrite (startup_no_cli h selected args _ Hno).
  rewrite (init_stored_object h selected (boot σ) fields _ Hstored Hprop eq_refl).
  reflexivity.
Qed.

Lemma string_recentRoots_yields_first_character_witness :
  getRoot
    (startup Posix.host None Posix.bare
       (boot (Posix.stored
                (Posix.stringify (JObject [("recentRoots", JString "/home/me")]))))).2
  = Resolved (JString "/").
Proof.
  refine (string_recentRoots_yields_first_character Posix.host None Posix.bare _
            [("recentRoots", JString "/home/me")] "/"%char "home/me" _ _ _).
  - split; reflexivity.
  - eexists. split; [| split]; vm_compute; [reflexivity | discriminate | reflexivity].
  - reflexivity.
Defined.

(** X21: a stored [recentRoots] that is present but falsy ([null],
    [false], [0], the empty string) passes [WorkspaceData.is] and is then
    skipped by [init]: resolution completes with [undefined]. *)
Theorem falsy_recentRoots_is_skipped
    (h : Host) (selected : option string) (args : Arguments)
    (σ : gmap path node) (fields : list (string * JSValue)) (recent : JSValue) :
  no_cli_argument args →
  stored_json h σ (JObject fields) →
  own_property "recentRoots" fields = Some recent →
  is_undefined recent = false →
  truthy recent = false →
  WorkspaceData.is_ (JObject fields) = Ok true
  ∧ startup h selected args (boot σ)
    = (Ok tt, set_root (Resolved JUndefined) (boot σ)).
Proof.
  intros Hno Hstored Hprop Hdef Hfalsy. split.
  - unfold WorkspaceData.is_. simpl. rewrite Hprop. simpl. rewrite Hdef. reflexivity.
  - rewrite (startup_no_cli h selected args _ Hno).
    rewrite (init_stored_object h selected (boot σ) fields _ Hstored Hprop Hdef).
    rewrite Hfalsy. reflexivity.
Qed.

Lemma falsy_recentRoots_is_skipped_witness :
  let σ := Posix.stored (Posix.stringify (JObject [("recentRoots", JNull)])) in
  WorkspaceData.is_ (JObject [("recentRoots", JNull)]) = Ok true
  ∧ startup Posix.host None Posix.bare (boot σ)
    = (Ok tt, set_root (Resolved JUndefined) (boot σ)).
Proof.
  intros σ.
  refine (falsy_recentRoots_is_skipped Posix.host None Posix.bare σ
            [("recentRoots", JNull)] JNull _ _ _ _ _).
  - split; reflexivity.
  - eexists. split; [| split]; vm_compute; [reflexivity | discriminate | reflexivity].
  - reflexivity.
  - reflexivity.
  - reflexivity.
Defined.

(** X22: the deprecated [--root-dir] option has the effect of the
    positional argument: when no truthy positional argument is given, a
    non-empty [--root-dir] string is captured exactly as the same string
    in third positional place would be. *)
Theorem root_dir_acts_like_positional
    (h : Host) (args args' : Arguments) (d : string) :
  truthy (default JUndefined (positional args !! 2%nat)) = false →
  root_dir args = JString d →
  d ≠ "" →
  positional args' !! 2%nat = Some (JString d) →
  setArguments h args = setArguments h args'.
Proof.
  intros Hfalsy Hopt Hd Hpos.
  rewrite (setArguments_fallback h args Hfalsy), Hopt, (truthy_string d Hd).
  symmetry. apply setArguments_positional; [exact Hpos | apply truthy_string, Hd].
Qed.

Lemma root_dir_acts_like_positional_witness :
  setArguments Posix.host
    {| positional := [JString "node"; JString "main.js"]; root_dir := JString "proj" |}
  = setArguments Posix.host
      {| positional := [JString "node"; JString "main.js"; JString "proj"];
         root_dir := JUndefined |}.
Proof.
  refine (root_dir_acts_like_positional Posix.host _ _ "proj" _ _ _ _).
  - reflexivity.
  - reflexivity.
  - discriminate.
  - reflexivity.
Defined.
